(** * dns_to_doh.py: a DNS to DNS-over-HTTPS forwarding proxy

    A shallow embedding of the query engine of [src/dns_to_doh.py] and the
    properties its specification states about it.

    Layout:
    - [Py]      : the Python values the module works with (bytes, exceptions,
                  the [ipaddress] subset used by the bogon filter);
    - [Runtime] : the state the engine threads through a call (the static
                  override table, the log, the requests posted, the datagrams
                  handed to the socket) and the monad that threads it;
    - the functions of the source, in source order; those that parse an
      address are in the [Engine] section, over the IPv6 parser;
    - [Spec]    : the words of the specification (address ranges, header
                  fields, letter case);
    - sample inputs, then lemmas and theorems, component by component. *)

From Stdlib Require Import ZArith Ascii String List Bool Lia ZifyBool.
From stdpp Require Import base option gmap strings list fin_maps.
Import ListNotations.

Local Open Scope string_scope.
Local Open Scope Z_scope.

(** ** Python values *)

Module Py.

(** [bytes]: an immutable sequence of octets. *)
Abbreviation bytes := (list Byte.byte).

(** The exception classes the engine can meet.  [KeyboardInterrupt] and
    [SystemExit] derive from [BaseException] only; the others derive from
    [Exception]. *)
Inductive exn : Type :=
| ValueError
| KeyError
| OSError
| RequestException
| KeyboardInterrupt
| SystemExit.

Definition isinstance_Exception (e : exn) : bool :=
  match e with
  | KeyboardInterrupt | SystemExit => false
  | _ => true
  end.

(** The outcome of evaluating an expression: a value or a raised exception. *)
Inductive result (A : Type) : Type :=
| Ok (a : A)
| Raise (e : exn).
Arguments Ok {A} a.
Arguments Raise {A} e.

Definition rbind {A B} (r : result A) (k : A -> result B) : result B :=
  match r with
  | Ok a => k a
  | Raise e => Raise e
  end.

(** [query[:2]] and [response_data[2:]]: Python slices never raise, they
    clip to the length of the sequence. *)
Definition slice_to (n : nat) (b : bytes) : bytes := firstn n b.
Definition slice_from (n : nat) (b : bytes) : bytes := skipn n b.

(** *** [str.split(sep)] for a one-character separator *)

Fixpoint split (sep : ascii) (s : string) : list string :=
  match s with
  | EmptyString => [EmptyString]
  | String c rest =>
      if Ascii.eqb c sep then EmptyString :: split sep rest
      else match split sep rest with
           | [] => [String c EmptyString]
           | hd :: tl => String c hd :: tl
           end
  end.

(** *** The part of [ipaddress] the bogon filter runs

    Modelled on CPython's [Lib/ipaddress.py] (3.9.5 and later, where an octet
    with a leading zero is refused). *)

Definition is_ascii_digit (c : ascii) : bool :=
  let n := Z.of_nat (nat_of_ascii c) in (48 <=? n) && (n <=? 57).

(** [str.isascii() and str.isdigit()]: every character is one of 0-9 and
    there is at least one. *)
Definition isdigit (s : string) : bool :=
  match s with
  | EmptyString => false
  | _ => forallb is_ascii_digit (list_ascii_of_string s)
  end.

(** [int(s, 10)] on a string of ASCII digits. *)
Definition int_of_digits (s : string) : Z :=
  fold_left (fun acc c => 10 * acc + (Z.of_nat (nat_of_ascii c) - 48))
            (list_ascii_of_string s) 0.

(** [IPv4Address._parse_octet]; [None] stands for the [ValueError] it
    raises. *)
Definition _parse_octet (octet_str : string) : option Z :=
  if String.eqb octet_str "" then None
  else if negb (isdigit octet_str) then None
  else if (3 <? String.length octet_str)%nat then None
  else if negb (String.eqb octet_str "0") && String.prefix "0" octet_str then None
  else
    let octet_int := int_of_digits octet_str in
    if 255 <? octet_int then None else Some octet_int.

(** [int.from_bytes(octets, 'big')] *)
Definition int_from_bytes_big (octets : list Z) : Z :=
  fold_left (fun acc o => 256 * acc + o) octets 0.

(** [IPv4Address._ip_int_from_string] *)
Definition _ip_int_from_string (ip_str : string) : option Z :=
  let octets := split "." ip_str in
  if negb (length octets =? 4)%nat then None
  else option_map int_from_bytes_big (mapM _parse_octet octets).

Definition _ALL_ONES : Z := 2 ^ 32 - 1.
Definition _max_prefixlen : Z := 32.

(** [_ip_int_from_prefix]: the netmask of a prefix length. *)
Definition _ip_int_from_prefix (prefixlen : Z) : Z :=
  Z.lxor _ALL_ONES (Z.shiftr _ALL_ONES prefixlen).

(** [_prefix_from_prefix_string] *)
Definition _prefix_from_prefix_string (prefixlen_str : string) : option Z :=
  if negb (isdigit prefixlen_str) then None
  else
    let prefixlen := int_of_digits prefixlen_str in
    if (0 <=? prefixlen) && (prefixlen <=? _max_prefixlen)
    then Some prefixlen else None.

(** An address object: [ip_address] returns an [IPv4Address] or an
    [IPv6Address], each holding its integer [_ip]. *)
Inductive ip_obj : Type :=
| IPv4Address (_ip : Z)
| IPv6Address (_ip : Z).

(** An [IPv4Network] object. *)
Record IPv4Network : Type := {
  network_address : Z;
  netmask : Z;
  prefixlen : Z
}.

(** [IPv4Network.__init__] (strict) once the text is split into the address
    and the prefix length: the address parses, the prefix length is valid
    and the address has no host bits set, or [ValueError]. *)
Definition IPv4Network_init (addr : string) (plen : option Z) : result IPv4Network :=
  match _ip_int_from_string addr, plen with
  | Some a, Some p =>
      let m := _ip_int_from_prefix p in
      if negb (Z.land a m =? a) then Raise ValueError
      else Ok {| network_address := a; netmask := m; prefixlen := p |}
  | _, _ => Raise ValueError
  end.

(** [ipaddress.ip_network(s)] on the text of an IPv4 network, [a.b.c.d/len]
    or [a.b.c.d].  The netmask written as a dotted quad and the IPv6
    fallback are left out: the configured ranges use neither
    ([BOGON_IP_RANGES_parse] below). *)
Definition ip_network (address : string) : result IPv4Network :=
  match split "/" address with
  | [addr] => IPv4Network_init addr (Some _max_prefixlen)
  | [addr; mask] => IPv4Network_init addr (_prefix_from_prefix_string mask)
  | _ => Raise ValueError
  end.

(** [addr in net], [_BaseNetwork.__contains__]: false when the versions
    differ, otherwise [addr._ip & net.netmask._ip == net.network_address._ip]. *)
Definition contains (net : IPv4Network) (addr : ip_obj) : bool :=
  match addr with
  | IPv4Address ip => Z.land ip (netmask net) =? network_address net
  | IPv6Address _ => false
  end.

End Py.
Import Py.

(** ** The state of the running module *)

Module Runtime.

(** A socket address [(host, port)] of an [AF_INET] socket. *)
Definition address : Type := string * Z.

(** What [requests.post] returns: only the two attributes the engine reads. *)
Record Response : Type := {
  status_code : Z;
  content : bytes
}.

(** The messages the module logs, one constructor per f-string of the
    source, holding the values the f-string interpolates. *)
Inductive message : Type :=
| Added_static_IP_mapping (hostname ip : string)
| Removed_static_IP_mapping (hostname : string)
| Listening_on_port (port : Z)
| Received_DNS_query_from (client_ip : string)
| Blocked_bogon_request_from (client_ip : string)
| Responding_with_static_IP_for (query_hostname static_ip : string)
| Forwarded_query_to_DoH_server (url : string)
| DoH_server_response_status (status : Z)
| Forwarded_response_to (addr : address)
| Error_forwarding_query (status : Z)
| Error (e : exn).

Inductive level : Type := INFO | ERROR.

Definition log_record : Type := level * message.

(** The module-level dictionary [static_ip_mappings], the records written by
    [logging], the requests made with [requests.post] (URL and body) and the
    datagrams the socket accepted from [sendto], each oldest first. *)
Record State : Type := {
  static_ip_mappings : gmap string string;
  log : list log_record;
  posted : list (string * bytes);
  sent : list (bytes * address)
}.

(** What the outside world answers during the handling of one datagram:
    the outcome of the HTTPS POST, and the error [sendto] raises, if any. *)
Record Network : Type := {
  doh_answer : string -> bytes -> result Response;
  sendto_error : bytes -> address -> option exn
}.

(** A computation that reads and writes the state and may raise.  The state
    reached when an exception is raised is kept: what was logged or sent
    before the exception stays logged or sent. *)
Definition M (A : Type) : Type := State -> result A * State.

Definition ret {A} (a : A) : M A := fun st => (Ok a, st).

Definition bind {A B} (m : M A) (k : A -> M B) : M B :=
  fun st =>
    match m st with
    | (Ok a, st') => k a st'
    | (Raise e, st') => (Raise e, st')
    end.

Definition raise {A} (e : exn) : M A := fun st => (Raise e, st).

Definition lift {A} (r : result A) : M A := fun st => (r, st).

(** [try: body except Exception as e: handler(e)] *)
Definition try_except_Exception {A} (body : M A) (handler : exn -> M A) : M A :=
  fun st =>
    match body st with
    | (Ok a, st') => (Ok a, st')
    | (Raise e, st') =>
        if isinstance_Exception e then handler e st' else (Raise e, st')
    end.

Definition logging (lvl : level) (msg : message) : M unit :=
  fun st =>
    (Ok tt, {| static_ip_mappings := static_ip_mappings st;
               log := log st ++ [(lvl, msg)];
               posted := posted st;
               sent := sent st |}).

Definition logging_info : message -> M unit := logging INFO.
Definition logging_error : message -> M unit := logging ERROR.

(** [requests.post(url, headers=..., data=data, verify=...)]: the request
    is made, then the answer is returned or the exception raised. *)
Definition requests_post (net : Network) (url : string) (data : bytes) : M Response :=
  fun st =>
    (doh_answer net url data,
     {| static_ip_mappings := static_ip_mappings st;
        log := log st;
        posted := posted st ++ [(url, data)];
        sent := sent st |}).

(** [sock.sendto(data, addr)] *)
Definition sock_sendto (net : Network) (data : bytes) (addr : address) : M unit :=
  fun st =>
    match sendto_error net data addr with
    | Some e => (Raise e, st)
    | None =>
        (Ok tt, {| static_ip_mappings := static_ip_mappings st;
                   log := log st;
                   posted := posted st;
                   sent := sent st ++ [(data, addr)] |})
    end.

(** The dictionary operations the source applies to [static_ip_mappings]. *)

(** [key in static_ip_mappings] *)
Definition dict_contains (key : string) : M bool :=
  fun st => (Ok (bool_decide (is_Some (static_ip_mappings st !! key))), st).

(** [static_ip_mappings[key]] *)
Definition dict_getitem (key : string) : M string :=
  fun st =>
    match static_ip_mappings st !! key with
    | Some v => (Ok v, st)
    | None => (Raise KeyError, st)
    end.

(** [static_ip_mappings[key] = value] *)
Definition dict_setitem (key value : string) : M unit :=
  fun st =>
    (Ok tt, {| static_ip_mappings := <[key := value]> (static_ip_mappings st);
               log := log st;
               posted := posted st;
               sent := sent st |}).

(** [del static_ip_mappings[key]] *)
Definition dict_delitem (key : string) : M unit :=
  fun st =>
    match static_ip_mappings st !! key with
    | Some _ =>
        (Ok tt, {| static_ip_mappings := delete key (static_ip_mappings st);
                   log := log st;
                   posted := posted st;
                   sent := sent st |})
    | None => (Raise KeyError, st)
    end.

End Runtime.
Import Runtime.

Notation "'let*' x ':=' m 'in' k" := (bind m (fun x => k))
  (at level 10, x name, m at level 100, k at level 200).
Notation "m ;; k" := (bind m (fun _ => k))
  (at level 100, k at level 200, right associativity).

(** ** The source, function by function *)

(** Configuration *)
Definition LISTEN_PORT : Z := 53.
Definition DOH_SERVER : string := "https://odoh.cloudflare-dns.com/dns-query".

(** List of bogon IP ranges (excluding RFC 1918 private ranges) *)
Definition BOGON_IP_RANGES : list string := [
  "0.0.0.0/8";
  "127.0.0.0/8";
  "169.254.0.0/16";
  "192.0.2.0/24";
  "198.51.100.0/24";
  "203.0.113.0/24";
  "255.255.255.255/32"
].

(** [add_static_ip_mapping] *)
Definition add_static_ip_mapping (hostname ip : string) : M unit :=
  dict_setitem hostname ip ;;
  logging_info (Added_static_IP_mapping hostname ip).

(** [remove_static_ip_mapping] *)
Definition remove_static_ip_mapping (hostname : string) : M unit :=
  let* present := dict_contains hostname in
  if present then
    dict_delitem hostname ;;
    logging_info (Removed_static_IP_mapping hostname)
  else ret tt.

(** [extract_transaction_id]: [query[:2]] *)
Definition extract_transaction_id (query : bytes) : bytes := slice_to 2 query.

(** [construct_dns_response]: [transaction_id + response_data[2:]] *)
Definition construct_dns_response (original_query response_data : bytes) : bytes :=
  let transaction_id := extract_transaction_id original_query in
  transaction_id ++ slice_from 2 response_data.

(** [parse_dns_query_for_hostname]: the source returns a fixed name. *)
Definition parse_dns_query_for_hostname (query : bytes) : string := "example.com".

(** [create_static_ip_dns_response]: the source returns [b'']. *)
Definition create_static_ip_dns_response (ip : string) : bytes := [].

(** [local_response], the reply of the bogon branch of [handle_dns_query]:
    [b'\x00\x00\x81\x80\x00\x01\x00\x01\x00\x00\x00\x00']. *)
Definition local_response : bytes :=
  [Byte.x00; Byte.x00; Byte.x81; Byte.x80; Byte.x00; Byte.x01;
   Byte.x00; Byte.x01; Byte.x00; Byte.x00; Byte.x00; Byte.x00].

Section Engine.

(** [IPv6Address._ip_int_from_string], which [ip_address] falls back to when
    the text is not an IPv4 address; [None] when it raises. *)
Variable ip6_int_from_string : string -> option Z.

(** [ipaddress.ip_address]: an [IPv4Address] if the text parses as one,
    else an [IPv6Address] if it parses as one, else [ValueError]. *)
Definition ip_address (address : string) : result ip_obj :=
  match _ip_int_from_string address with
  | Some n => Ok (IPv4Address n)
  | None =>
      match ip6_int_from_string address with
      | Some n => Ok (IPv6Address n)
      | None => Raise ValueError
      end
  end.

(** The [for net in BOGON_IP_RANGES] loop of [is_bogon_ip]. *)
Fixpoint is_bogon_ip_for (ip_obj : ip_obj) (nets : list string) : result bool :=
  match nets with
  | [] => Ok false
  | net :: rest =>
      rbind (ip_network net) (fun n =>
        if contains n ip_obj then Ok true else is_bogon_ip_for ip_obj rest)
  end.

(** [is_bogon_ip] *)
Definition is_bogon_ip (ip : string) : result bool :=
  rbind (ip_address ip) (fun ip_obj => is_bogon_ip_for ip_obj BOGON_IP_RANGES).

(** [handle_dns_query(data, addr, sock)]; the socket and [requests] are
    the [Network]. *)
Definition handle_dns_query (net : Network) (data : bytes) (addr : address) : M unit :=
  let client_ip := fst addr in
  logging_info (Received_DNS_query_from client_ip) ;;
  let* bogon := lift (is_bogon_ip client_ip) in
  if bogon then
    logging_info (Blocked_bogon_request_from client_ip) ;;
    sock_sendto net local_response addr
  else
    let query_hostname := parse_dns_query_for_hostname data in
    let* overridden := dict_contains query_hostname in
    if overridden then
      let* static_ip := dict_getitem query_hostname in
      logging_info (Responding_with_static_IP_for query_hostname static_ip) ;;
      let response_data :=
        construct_dns_response data (create_static_ip_dns_response static_ip) in
      sock_sendto net response_data addr
    else
      let* response := requests_post net DOH_SERVER data in
      logging_info (Forwarded_query_to_DoH_server DOH_SERVER) ;;
      logging_info (DoH_server_response_status (status_code response)) ;;
      if status_code response =? 200 then
        let response_data := content response in
        let response_data_with_id := construct_dns_response data response_data in
        sock_sendto net response_data_with_id addr ;;
        logging_info (Forwarded_response_to addr)
      else
        logging_error (Error_forwarding_query (status_code response)).

(** One turn of the [while True] loop of [start_dns_server]: what arrives
    at the socket (a datagram and its sender, or the error [recvfrom]
    raises) and how the network answers while the datagram is handled. *)
Record Event : Type := {
  arrival : result (bytes * address);
  network : Network
}.

(** [sock.recvfrom(bufsize)]: at most [bufsize] bytes of the datagram. *)
Definition sock_recvfrom (bufsize : nat) (ev : Event) : M (bytes * address) :=
  match arrival ev with
  | Ok (datagram, addr) => ret (slice_to bufsize datagram, addr)
  | Raise e => raise e
  end.

(** The [try] block of the loop: receive one datagram and handle it. *)
Definition receive_and_handle (ev : Event) : M unit :=
  let* received := sock_recvfrom 512 ev in
  handle_dns_query (network ev) (fst received) (snd received).

(** The body of the loop: the [try] block and its [except Exception]. *)
Definition loop_body (ev : Event) : M unit :=
  try_except_Exception (receive_and_handle ev)
                       (fun e => logging_error (Error e)).

(** The loop, run on the events of its first turns.  It has no [break]: it
    is still [Running] when the events are used up, and it is [Terminated]
    only by an exception that leaves the body. *)
Inductive loop_status : Type :=
| Running (st : State)
| Terminated (e : exn) (st : State).

Fixpoint while_True (events : list Event) (st : State) : loop_status :=
  match events with
  | [] => Running st
  | ev :: rest =>
      match loop_body ev st with
      | (Ok _, st') => while_True rest st'
      | (Raise e, st') => Terminated e st'
      end
  end.

(** What happens before the loop: binding the socket and loading the
    certificate chain may each raise. *)
Record Host : Type := {
  bind_error : option exn;
  load_cert_chain_error : option exn
}.

(** [start_dns_server] *)
Definition start_dns_server (host : Host) (events : list Event) (st : State)
  : loop_status :=
  match bind_error host with
  | Some e => Terminated e st
  | None =>
      let st1 := snd (logging_info (Listening_on_port LISTEN_PORT) st) in
      match load_cert_chain_error host with
      | Some e => Terminated e st1
      | None => while_True events st1
      end
  end.

End Engine.

(** ** Vocabulary of the specification *)

Module Spec.

(** The integer of the dotted quad [a.b.c.d]. *)
Definition ipv4 (a b c d : Z) : Z := ((a * 256 + b) * 256 + c) * 256 + d.

(** Membership in the CIDR block [a.b.c.d/len], by arithmetic on the
    address: the block is the [2^(32-len)] addresses from its base on. *)
Definition cidr (a b c d len : Z) (ip : Z) : bool :=
  (ipv4 a b c d <=? ip) && (ip <? ipv4 a b c d + 2 ^ (32 - len)).

(** The same for a parsed network object. *)
Definition in_block (n : IPv4Network) (ip : Z) : bool :=
  (network_address n <=? ip) && (ip <? network_address n + 2 ^ (32 - prefixlen n)).

(** The private ranges of RFC 1918. *)
Definition rfc1918 (ip : Z) : bool :=
  cidr 10 0 0 0 8 ip || cidr 172 16 0 0 12 ip || cidr 192 168 0 0 16 ip.

(** The blocks of the IANA IPv4 special-purpose address registry that are
    not globally reachable (the list [ipaddress] uses for [is_global]). *)
Definition special_purpose_blocks : list (Z * Z * Z * Z * Z) := [
  (0, 0, 0, 0, 8); (10, 0, 0, 0, 8); (100, 64, 0, 0, 10); (127, 0, 0, 0, 8);
  (169, 254, 0, 0, 16); (172, 16, 0, 0, 12); (192, 0, 0, 0, 24);
  (192, 0, 2, 0, 24); (192, 168, 0, 0, 16); (198, 18, 0, 0, 15);
  (198, 51, 100, 0, 24); (203, 0, 113, 0, 24); (240, 0, 0, 0, 4);
  (255, 255, 255, 255, 32)
].

(** A globally routable IPv4 address: outside every special-purpose block,
    or one of the two globally reachable addresses inside 192.0.0.0/24. *)
Definition globally_routable (ip : Z) : bool :=
  (0 <=? ip) && (ip <? 2 ^ 32) &&
  (negb (existsb (fun '(a, b, c, d, len) => cidr a b c d len ip) special_purpose_blocks)
   || (ip =? ipv4 192 0 0 9) || (ip =? ipv4 192 0 0 10)).

(** The configured bogon ranges as network objects. *)
Definition bogon_blocks : list IPv4Network :=
  Eval vm_compute in
    omap (fun net => match ip_network net with Ok n => Some n | Raise _ => None end)
         BOGON_IP_RANGES.

(** Fields of a DNS message header. *)
Definition byte_value (b : Byte.byte) : Z := Z.of_N (Byte.to_N b).

Definition u16_at (offset : nat) (msg : bytes) : option Z :=
  match nth_error msg offset, nth_error msg (S offset) with
  | Some hi, Some lo => Some (256 * byte_value hi + byte_value lo)
  | _, _ => None
  end.

Definition transaction_id (msg : bytes) : bytes := firstn 2 msg.
Definition QDCOUNT : bytes -> option Z := u16_at 4.
Definition ANCOUNT : bytes -> option Z := u16_at 6.

(** [sub] occurs in [msg] as a run of consecutive bytes. *)
Definition occurs_in (sub msg : bytes) : Prop :=
  exists before after : bytes, msg = (before ++ sub ++ after)%list.

(** Letter case: ASCII lower-casing, and two names that differ only in
    letter case. *)
Definition ascii_lower (c : ascii) : ascii :=
  let n := nat_of_ascii c in
  if (65 <=? n)%nat && (n <=? 90)%nat then ascii_of_nat (n + 32) else c.

Fixpoint lower (s : string) : string :=
  match s with
  | EmptyString => EmptyString
  | String c rest => String (ascii_lower c) (lower rest)
  end.

Definition same_up_to_case (h1 h2 : string) : Prop := lower h1 = lower h2.

(** The static override table of a state, after running an action. *)
Definition table_after (m : M unit) (st : State) : gmap string string :=
  static_ip_mappings (snd (m st)).

(** The environment of one turn of the loop raises errors only: whatever
    [recvfrom], [requests.post] or [sendto] raise is an instance of
    [Exception] (not a [KeyboardInterrupt] or a [SystemExit]). *)
Definition raises_only_errors (ev : Event) : Prop :=
  (forall e, arrival ev = Raise e -> isinstance_Exception e = true)
  /\ (forall url body e,
        doh_answer (network ev) url body = Raise e -> isinstance_Exception e = true)
  /\ (forall payload addr e,
        sendto_error (network ev) payload addr = Some e -> isinstance_Exception e = true).

End Spec.
Import Spec.

(** ** Sample inputs *)

(** No text is taken for an IPv6 address. *)
Definition no_ipv6 : string -> option Z := fun _ => None.

Definition empty_state : State :=
  {| static_ip_mappings := ∅; log := []; posted := []; sent := [] |}.

(** A query for [example.com], type A, with transaction ID [0xABCD]. *)
Definition query_abcd : bytes :=
  [Byte.xab; Byte.xcd; Byte.x01; Byte.x00; Byte.x00; Byte.x01; Byte.x00; Byte.x00;
   Byte.x00; Byte.x00; Byte.x00; Byte.x00;
   Byte.x07; Byte.x65; Byte.x78; Byte.x61; Byte.x6d; Byte.x70; Byte.x6c; Byte.x65;
   Byte.x03; Byte.x63; Byte.x6f; Byte.x6d; Byte.x00;
   Byte.x00; Byte.x01; Byte.x00; Byte.x01].

(** An upstream answer carrying the transaction ID [0x1234]. *)
Definition answer_1234 : bytes :=
  [Byte.x12; Byte.x34; Byte.x81; Byte.x80; Byte.x00; Byte.x01; Byte.x00; Byte.x00;
   Byte.x00; Byte.x00; Byte.x00; Byte.x00].

(** An upstream that answers every POST with the given status and body;
    [sendto] succeeds. *)
Definition upstream (status : Z) (body : bytes) : Network :=
  {| doh_answer := fun _ _ => Ok {| status_code := status; content := body |};
     sendto_error := fun _ _ => None |}.

(** An upstream that cannot be reached. *)
Definition network_down : Network :=
  {| doh_answer := fun _ _ => Raise RequestException;
     sendto_error := fun _ _ => None |}.

(** A datagram arriving from port 40000 of a host. *)
Definition datagram (payload : bytes) (host : string) (net : Network) : Event :=
  {| arrival := Ok (payload, (host, 40000)); network := net |}.

(** The state after [add_static_ip_mapping("example.com", "10.0.0.5")]. *)
Definition override_state : State :=
  snd (add_static_ip_mapping "example.com" "10.0.0.5" empty_state).

(** Five bytes: less than a DNS header. *)
Definition query_5_bytes : bytes :=
  [Byte.xab; Byte.xcd; Byte.x01; Byte.x00; Byte.x00].

(** ** Proof steps

    Running [handle_dns_query] symbolically: unfold the monad, then rewrite
    with what is known of the environment and reduce, one step at a time. *)

Ltac engine_simpl :=
  cbn beta iota zeta delta
    [fst snd static_ip_mappings log posted sent status_code content].

Ltac run_engine :=
  unfold handle_dns_query, bind, lift, ret, logging_info, logging_error, logging,
    sock_sendto, requests_post, dict_contains, dict_getitem;
  engine_simpl.

Tactic Notation "engine_step" constr(H) := rewrite H; engine_simpl.

(** ** What a call adds to the state *)

(** The state [st] after more records were logged, more requests posted
    and more datagrams sent, the table being as it was. *)
Definition extend (st : State) (records : list log_record)
    (requests : list (string * bytes)) (datagrams : list (bytes * address)) : State :=
  {| static_ip_mappings := static_ip_mappings st;
     log := log st ++ records;
     posted := posted st ++ requests;
     sent := sent st ++ datagrams |}.

(** The state one turn of the loop leaves behind when the exception of the
    [try] block, if there is one, is caught: the state the block reached,
    and after it the record of the error. *)
Definition after_turn (ip6 : string -> option Z) (ev : Event) (st : State) : State :=
  match receive_and_handle ip6 ev st with
  | (Ok _, st1) => st1
  | (Raise e, st1) =>
      {| static_ip_mappings := static_ip_mappings st1;
         log := log st1 ++ [(ERROR, Error e)];
         posted := posted st1;
         sent := sent st1 |}
  end.

(** The state the loop is in, running or terminated. *)
Definition final_state (status : loop_status) : State :=
  match status with
  | Running st => st
  | Terminated _ st => st
  end.

(** What one turn of the loop may post: nothing, or the first 512 bytes of
    the datagram that arrived, to the DoH server. *)
Definition turn_request (ev : Event) (request : string * bytes) : Prop :=
  exists payload addr,
    arrival ev = Ok (payload, addr) /\ request = (DOH_SERVER, firstn 512 payload).

(** What one turn of the loop may send: a datagram to the sender of the
    datagram that arrived. *)
Definition turn_reply (ev : Event) (datagram : bytes * address) : Prop :=
  exists payload, arrival ev = Ok (payload, snd datagram).

(** The requests one turn posts: none, or the one request that carries the
    first 512 bytes of the datagram that arrived in this turn. *)
Definition turn_posts (ev : Event) (requests : list (string * bytes)) : Prop :=
  requests = []
  \/ exists payload addr,
       arrival ev = Ok (payload, addr)
       /\ requests = [(DOH_SERVER, firstn 512 payload)].

(** The datagrams one turn sends: none, or one, to the sender of the
    datagram that arrived in this turn. *)
Definition turn_sends (ev : Event) (datagrams : list (bytes * address)) : Prop :=
  datagrams = []
  \/ exists payload addr reply,
       arrival ev = Ok (payload, addr) /\ datagrams = [(reply, addr)].

(** More sample inputs. *)

(** A turn in which [recvfrom] is interrupted from the keyboard. *)
Definition interrupted : Event :=
  {| arrival := Raise KeyboardInterrupt; network := network_down |}.


(** The IPv6 parser that knows the loopback address only. *)
Definition loopback_ipv6 : string -> option Z :=
  fun s => if String.eqb s "::1" then Some 1 else None.

(** ** Start-up: directories, certificate files and the process holding the port

    [create_directories_and_files] and [check_and_kill_process_on_port] run
    before the engine.  They work on the file system and on other
    processes, raise exceptions of their own, and log messages of their
    own. *)

Module Startup.

(** Configuration *)
Definition CERTIFICATE_PATH : string := "/home/user/cloudflare.crt".
Definition KEY_PATH : string := "/home/user/cloudflare.pem".
Definition PID_FILE : string := "/var/run/dns_server.pid".
Definition LOG_FILE : string := "/var/log/dns-to-doh.log".

(** The exception classes met at start-up. *)
Inductive error : Type :=
| FileNotFoundError
| FileExistsError
| NotADirectoryError
| PermissionError
| ProcessLookupError
| CalledProcessError
| IndexError
| ValueError
| UnicodeDecodeError.

Inductive outcome (A : Type) : Type :=
| Done (a : A)
| Raised (e : error).
Arguments Done {A} a.
Arguments Raised {A} e.

(** The two signals the module sends: [0], which only probes, and
    [signal.SIGKILL]. *)
Inductive signal : Type := SIG0 | SIGKILL.

(** The messages of the start-up functions, one constructor per f-string. *)
Inductive note : Type :=
| Killed_process (pid port : Z)
| Process_no_longer_exists (pid : Z)
| Permission_denied (pid : Z)
| No_process_found (port : Z).

(** The paths that exist, the calls made to [os.kill], and the records
    logged, oldest first. *)
Record World : Type := {
  files : gset string;
  signals : list (Z * signal);
  journal : list (level * note)
}.

(** What the system answers:
    - [makedirs name files]: the outcome of [os.makedirs(name)] and the
      paths that exist afterwards;
    - [lsof port]: the text [subprocess.check_output(['lsof', '-i',
      ':port']).decode()] evaluates to, or the exception either call raises;
    - [kill_error calls pid sig]: the exception [os.kill(pid, sig)] raises,
      if any, after the calls [calls] were made. *)
Record System : Type := {
  makedirs : string -> gset string -> outcome unit * gset string;
  lsof : Z -> outcome string;
  kill_error : list (Z * signal) -> Z -> signal -> option error
}.

Definition Act (A : Type) : Type := World -> outcome A * World.

Definition sret {A} (a : A) : Act A := fun w => (Done a, w).

Definition sbind {A B} (m : Act A) (k : A -> Act B) : Act B :=
  fun w =>
    match m w with
    | (Done a, w') => k a w'
    | (Raised e, w') => (Raised e, w')
    end.

Definition sraise {A} (e : error) : Act A := fun w => (Raised e, w).

Definition slift {A} (r : outcome A) : Act A := fun w => (r, w).

(** [try: body except <classes>: handler(e)] *)
Definition try_except {A} (body : Act A) (caught : error -> bool)
    (handler : error -> Act A) : Act A :=
  fun w =>
    match body w with
    | (Done a, w') => (Done a, w')
    | (Raised e, w') => if caught e then handler e w' else (Raised e, w')
    end.

Definition slog (lvl : level) (msg : note) : Act unit :=
  fun w =>
    (Done tt, {| files := files w; signals := signals w;
                 journal := journal w ++ [(lvl, msg)] |}).

(** [os.path.exists(path)] *)
Definition os_path_exists (path : string) : Act bool :=
  fun w => (Done (bool_decide (path ∈ files w)), w).

(** [os.makedirs(name)] *)
Definition os_makedirs (sys : System) (name : string) : Act unit :=
  fun w =>
    let '(r, files') := makedirs sys name (files w) in
    (r, {| files := files'; signals := signals w; journal := journal w |}).

(** [os.kill(pid, sig)] *)
Definition os_kill (sys : System) (pid : Z) (sig : signal) : Act unit :=
  fun w =>
    (match kill_error sys (signals w) pid sig with
     | Some e => Raised e
     | None => Done tt
     end,
     {| files := files w; signals := signals w ++ [(pid, sig)];
        journal := journal w |}).

(** *** [posixpath.dirname] *)

(** The characters of [s] up to and including its last [/]: [p[:i]] for
    [i = p.rfind('/') + 1]. *)
Fixpoint up_to_last_slash (s : string) : string :=
  match s with
  | EmptyString => EmptyString
  | String c rest =>
      match up_to_last_slash rest with
      | EmptyString => if Ascii.eqb c "/" then String c EmptyString else EmptyString
      | head => String c head
      end
  end.

(** [s.rstrip('/')] *)
Fixpoint rstrip_slash (s : string) : string :=
  match s with
  | EmptyString => EmptyString
  | String c rest =>
      match rstrip_slash rest with
      | EmptyString => if Ascii.eqb c "/" then EmptyString else String c EmptyString
      | rest' => String c rest'
      end
  end.

Definition dirname (p : string) : string :=
  let head := up_to_last_slash p in
  if negb (String.eqb head "")
     && negb (forallb (Ascii.eqb "/") (list_ascii_of_string head))
  then rstrip_slash head
  else head.

(** *** [str.splitlines], [str.split] and [int]

    A character of a [string] stands for the code point of its number,
    U+0000 to U+00FF; a text with a code point above U+00FF is no [string]. *)

(** The line boundaries of [str.splitlines] below U+0100: LF, VT, FF, CR,
    FS, GS, RS and NEL (U+0085). *)
Definition is_linebreak (c : ascii) : bool :=
  let n := nat_of_ascii c in
  ((10 <=? n) && (n <=? 13) || (28 <=? n) && (n <=? 30) || (n =? 133))%nat.

Fixpoint splitlines (s : string) : list string :=
  match s with
  | EmptyString => []
  | String c rest =>
      if is_linebreak c then
        match rest with
        | String c2 rest2 =>
            if Ascii.eqb c "013" && Ascii.eqb c2 "010"
            then EmptyString :: splitlines rest2
            else EmptyString :: splitlines rest
        | EmptyString => [EmptyString]
        end
      else
        match splitlines rest with
        | [] => [String c EmptyString]
        | line :: lines => String c line :: lines
        end
  end.

(** Whitespace below U+0100, as [str.split()] sees it: TAB to CR, FS to US,
    space, NEL (U+0085) and the no-break space (U+00A0). *)
Definition is_space (c : ascii) : bool :=
  let n := nat_of_ascii c in
  ((9 <=? n) && (n <=? 13) || (28 <=? n) && (n <=? 32)
   || (n =? 133) || (n =? 160))%nat.

(** [line.split()]: the maximal runs of characters that are not whitespace. *)
Fixpoint str_split (s : string) : list string :=
  match s with
  | EmptyString => []
  | String c rest =>
      if is_space c then str_split rest
      else
        match rest with
        | EmptyString => [String c EmptyString]
        | String c2 _ =>
            if is_space c2 then String c EmptyString :: str_split rest
            else
              match str_split rest with
              | [] => [String c EmptyString]
              | word :: words => String c word :: words
              end
        end
  end.

(** Digits with single underscores between them, as [int] accepts. *)
Fixpoint digits_ok (after_digit : bool) (s : string) : bool :=
  match s with
  | EmptyString => after_digit
  | String c rest =>
      if is_ascii_digit c then digits_ok true rest
      else if Ascii.eqb c "_" then after_digit && digits_ok false rest
      else false
  end.

Fixpoint without_underscores (s : string) : string :=
  match s with
  | EmptyString => EmptyString
  | String c rest =>
      if Ascii.eqb c "_" then without_underscores rest
      else String c (without_underscores rest)
  end.

(** [sys.get_int_max_str_digits()], by default. *)
Definition max_str_digits : nat := 4300.

(** [int(s)] on a field of [split()] (no whitespace to strip): an optional
    sign, then decimal digits (below U+0100 these are 0 to 9), at most
    [max_str_digits] of them (CPython 3.11 and later, and the security
    releases before it). *)
Definition int (s : string) : outcome Z :=
  let signed (sign : Z) (body : string) : outcome Z :=
    if digits_ok false body
       && (String.length (without_underscores body) <=? max_str_digits)%nat
    then Done (sign * int_of_digits (without_underscores body))
    else Raised ValueError in
  match s with
  | String "+" body => signed 1 body
  | String "-" body => signed (-1) body
  | _ => signed 1 s
  end.

(** [parts[1]] *)
Definition second (parts : list string) : outcome string :=
  match nth_error parts 1 with
  | Some part => Done part
  | None => Raised IndexError
  end.

(** *** The functions of the source *)

Notation "'let+' x ':=' m 'in' k" := (sbind m (fun x => k))
  (at level 10, x name, m at level 100, k at level 200).
Notation "m ;;; k" := (sbind m (fun _ => k))
  (at level 100, k at level 200, right associativity).

(** [create_directories_and_files] *)
Definition create_directories_and_files (sys : System) : Act unit :=
  let log_dir := dirname LOG_FILE in
  let+ log_dir_exists := os_path_exists log_dir in
  (if negb log_dir_exists then os_makedirs sys log_dir else sret tt) ;;;
  let pid_dir := dirname PID_FILE in
  let+ pid_dir_exists := os_path_exists pid_dir in
  (if negb pid_dir_exists then os_makedirs sys pid_dir else sret tt) ;;;
  let+ certificate_exists := os_path_exists CERTIFICATE_PATH in
  if negb certificate_exists then sraise FileNotFoundError
  else
    let+ key_exists := os_path_exists KEY_PATH in
    if negb key_exists then sraise FileNotFoundError
    else sret tt.

(** The inner [try] of [check_and_kill_process_on_port]: probe, kill, log;
    the two [except] clauses log and go on. *)
Definition kill_process (sys : System) (port pid : Z) : Act unit :=
  try_except
    (os_kill sys pid SIG0 ;;;
     os_kill sys pid SIGKILL ;;;
     slog INFO (Killed_process pid port))
    (fun e => match e with
              | ProcessLookupError | PermissionError => true
              | _ => false
              end)
    (fun e => match e with
              | ProcessLookupError => slog INFO (Process_no_longer_exists pid)
              | _ => slog ERROR (Permission_denied pid)
              end).

(** The [for line in ...] loop. *)
Fixpoint kill_listed (sys : System) (port : Z) (lines : list string) : Act unit :=
  match lines with
  | [] => sret tt
  | line :: rest =>
      let parts := str_split line in
      let+ field := slift (second parts) in
      let+ pid := slift (int field) in
      kill_process sys port pid ;;;
      kill_listed sys port rest
  end.

(** [check_and_kill_process_on_port] *)
Definition check_and_kill_process_on_port (sys : System) (port : Z) : Act unit :=
  try_except
    (let+ result := slift (lsof sys port) in
     kill_listed sys port (tail (splitlines result)))
    (fun e => match e with CalledProcessError => true | _ => false end)
    (fun _ => slog INFO (No_process_found port)).

(** [os.makedirs] as the functions rely on it: it removes no path, it
    creates none but the directory and its ancestors, and when it returns
    the directory exists. *)
Definition makedirs_behaves (sys : System) : Prop :=
  forall name fs,
    fs ⊆ snd (makedirs sys name fs)
    /\ (forall p, p ∈ snd (makedirs sys name fs) -> p ∈ fs \/ String.prefix p name = true)
    /\ (fst (makedirs sys name fs) = Done tt -> name ∈ snd (makedirs sys name fs)).

(** The PID that a line of [lsof] output names. *)
Definition listed_pid (line : string) : outcome Z :=
  match second (str_split line) with
  | Done field => int field
  | Raised e => Raised e
  end.

(** The calls to [os.kill] come in rounds: a probe with signal 0, followed
    by [SIGKILL] to the same process exactly when the probe did not raise.
    [rounds sys before calls]: [calls], made after [before], are such
    rounds. *)
Inductive rounds (sys : System) : list (Z * signal) -> list (Z * signal) -> Prop :=
| rounds_nil before :
    rounds sys before []
| rounds_refused before pid e calls :
    kill_error sys before pid SIG0 = Some e ->
    rounds sys (before ++ [(pid, SIG0)]) calls ->
    rounds sys before ((pid, SIG0) :: calls)
| rounds_killed before pid calls :
    kill_error sys before pid SIG0 = None ->
    rounds sys (before ++ [(pid, SIG0); (pid, SIGKILL)]) calls ->
    rounds sys before ((pid, SIG0) :: (pid, SIGKILL) :: calls).

(** The guarded [os.makedirs] that [create_directories_and_files] runs
    for each of its two directories. *)
Definition ensure_directory (sys : System) (dir : string) : Act unit :=
  sbind (os_path_exists dir)
        (fun present => if negb present then os_makedirs sys dir else sret tt).

(** The exceptions the inner [try] catches. *)
Definition tolerated (e : error) : bool :=
  match e with
  | ProcessLookupError | PermissionError => true
  | _ => false
  end.

(** The world after more calls to [os.kill] and more records logged. *)
Definition after (w : World) (calls : list (Z * signal))
    (records : list (level * note)) : World :=
  {| files := files w;
     signals := signals w ++ calls;
     journal := journal w ++ records |}.

(** The path is, as a string, a prefix of the directory of the log file or
    of the directory of the PID file.  Every ancestor of the two directories
    is such a prefix; the certificate and the key are not. *)
Definition start_up_directory (p : string) : Prop :=
  String.prefix p (dirname LOG_FILE) = true \/ String.prefix p (dirname PID_FILE) = true.

(** A directory followed by its ancestors, nearest first: what repeated
    [dirname] gives until it gives nothing new. *)
Fixpoint lineage_from (steps : nat) (p : string) : list string :=
  match steps with
  | O => []
  | Datatypes.S steps' =>
      let parent := dirname p in
      p :: (if String.eqb parent p || String.eqb parent ""
            then []
            else lineage_from steps' parent)
  end.

Definition lineage (p : string) : list string :=
  lineage_from (Datatypes.S (String.length p)) p.

(** [os.makedirs] removes no path, and the paths it creates are the
    directory and ancestors of it. *)
Definition makedirs_adds_lineage_only (sys : System) : Prop :=
  forall name fs,
    fs ⊆ snd (makedirs sys name fs)
    /\ (forall p, p ∈ snd (makedirs sys name fs) -> p ∈ fs \/ In p (lineage name)).


End Startup.

(** A system on which [os.makedirs] creates the one directory, [lsof]
    gives [output], and [os.kill] raises what [refuse] says for the PID. *)
Definition sample_system (output : Startup.outcome string)
    (refuse : Z -> option Startup.error) : Startup.System :=
  {| Startup.makedirs := fun name fs => (Startup.Done tt, {[name]} ∪ fs);
     Startup.lsof := fun _ => output;
     Startup.kill_error := fun _ pid _ => refuse pid |}.

(** A world where the certificate and the key exist and nothing else. *)
Definition fresh_world : Startup.World :=
  {| Startup.files := {[Startup.CERTIFICATE_PATH; Startup.KEY_PATH]};
     Startup.signals := [];
     Startup.journal := [] |}.

Definition newline : string := String "010" EmptyString.

(** [lsof] output naming the processes 812 and 977. *)
Definition lsof_output : string :=
  "COMMAND  PID   USER   FD   TYPE DEVICE SIZE/OFF NODE NAME" +:+ newline +:+
  "dnsmasq  812 nobody    4u  IPv4  17013      0t0  UDP *:domain" +:+ newline +:+
  "named    977   bind   20u  IPv4  18200      0t0  UDP *:domain" +:+ newline.

(** Process 977 belongs to another user. *)
Definition refuse_977 (pid : Z) : option Startup.error :=
  if pid =? 977 then Some Startup.PermissionError else None.

Ltac frame_done :=
  unfold extend; cbn [static_ip_mappings log posted sent];
  rewrite ?app_nil_r, <- ?app_assoc; reflexivity.

Ltac world_simpl :=
  cbn beta iota zeta delta
    [fst snd Startup.files Startup.signals Startup.journal].

(** ** The bogon filter *)

(** *** Netmasks and address ranges *)

Lemma testbit_32bit_high a i : 0 <= a < 2 ^ 32 -> 32 <= i -> Z.testbit a i = false.
Proof.
  intros Ha Hi. rewrite <- (Z.mod_small a (2 ^ 32)) by lia.
  apply Z.mod_pow2_bits_high. lia.
Qed.

Lemma land_netmask a p :
  0 <= a < 2 ^ 32 -> 0 <= p <= 32 ->
  Z.land a (_ip_int_from_prefix p) = Z.shiftl (Z.shiftr a (32 - p)) (32 - p).
Proof.
  intros Ha Hp. apply Z.bits_inj'. intros i Hi.
  unfold _ip_int_from_prefix, _ALL_ONES.
  change (2 ^ 32 - 1) with (Z.ones 32).
  rewrite Z.land_spec, Z.lxor_spec, Z.shiftr_spec by lia.
  rewrite !Z.testbit_ones_nonneg by lia.
  rewrite Z.shiftl_spec by lia.
  destruct (Z.ltb_spec i 32).
  - destruct (Z.ltb_spec (i + p) 32).
    + rewrite (Z.testbit_neg_r _ (i - (32 - p))) by lia. apply andb_false_r.
    + rewrite Z.shiftr_spec by lia. replace (i - (32 - p) + (32 - p)) with i by lia.
      apply andb_true_r.
  - rewrite (testbit_32bit_high a i) by lia. simpl.
    destruct (Z.ltb_spec i (32 - p)).
    + now rewrite Z.testbit_neg_r by lia.
    + rewrite Z.shiftr_spec by lia. replace (i - (32 - p) + (32 - p)) with i by lia.
      symmetry. apply testbit_32bit_high; lia.
Qed.

Lemma land_netmask_div a p :
  0 <= a < 2 ^ 32 -> 0 <= p <= 32 ->
  Z.land a (_ip_int_from_prefix p) = 2 ^ (32 - p) * (a / 2 ^ (32 - p)).
Proof.
  intros Ha Hp. rewrite land_netmask by lia.
  rewrite Z.shiftl_mul_pow2, Z.shiftr_div_pow2 by lia. lia.
Qed.

(** *** What the parsers return *)

Lemma int_of_digits_fold_nonneg l acc :
  forallb is_ascii_digit l = true -> 0 <= acc ->
  0 <= fold_left (fun acc c => 10 * acc + (Z.of_nat (nat_of_ascii c) - 48)) l acc.
Proof.
  revert acc. induction l as [|c l IH]; intros acc Hd Hacc; simpl in *; [lia|].
  apply andb_prop in Hd as [Hc Hl]. apply IH; [exact Hl|].
  unfold is_ascii_digit in Hc. lia.
Qed.

Lemma isdigit_int_of_digits_nonneg s : isdigit s = true -> 0 <= int_of_digits s.
Proof.
  intros H. unfold int_of_digits. apply int_of_digits_fold_nonneg; [|lia].
  destruct s; [discriminate|exact H].
Qed.

Lemma _parse_octet_range s n : _parse_octet s = Some n -> 0 <= n <= 255.
Proof.
  unfold _parse_octet. intros H.
  destruct (String.eqb s ""); [discriminate|].
  destruct (isdigit s) eqn:Hd; [|discriminate]. simpl in H.
  destruct (3 <? String.length s)%nat; [discriminate|].
  destruct (negb (String.eqb s "0") && String.prefix "0" s); [discriminate|].
  destruct (Z.ltb_spec 255 (int_of_digits s)); [discriminate|].
  injection H as <-. split; [now apply isdigit_int_of_digits_nonneg|lia].
Qed.

Lemma _ip_int_from_string_range s a : _ip_int_from_string s = Some a -> 0 <= a < 2 ^ 32.
Proof.
  unfold _ip_int_from_string. intros H.
  destruct (length (split "." s) =? 4)%nat eqn:Hlen; [|discriminate]. simpl in H.
  destruct (mapM _parse_octet (split "." s)) as [os|] eqn:Hm; [|discriminate].
  injection H as <-.
  apply Nat.eqb_eq in Hlen.
  pose proof (length_mapM _ _ _ Hm) as Hl. rewrite Hlen in Hl.
  apply mapM_Some_1 in Hm.
  destruct os as [|o1 [|o2 [|o3 [|o4 [|? ?]]]]]; try discriminate.
  assert (Hall : Forall (fun o => 0 <= o <= 255) [o1; o2; o3; o4]).
  { clear Hl Hlen. induction Hm; constructor; eauto using _parse_octet_range. }
  repeat match goal with H : Forall _ (_ :: _) |- _ => inversion H; subst; clear H end.
  unfold int_from_bytes_big. simpl. lia.
Qed.

Lemma _prefix_from_prefix_string_range s p :
  _prefix_from_prefix_string s = Some p -> 0 <= p <= 32.
Proof.
  unfold _prefix_from_prefix_string, _max_prefixlen. intros H.
  destruct (isdigit s); [|discriminate]. simpl in H.
  destruct (Z.leb_spec 0 (int_of_digits s)); [|discriminate].
  destruct (Z.leb_spec (int_of_digits s) 32); [|discriminate].
  simpl in H. injection H as <-. lia.
Qed.

Lemma contains_in_block base p a :
  0 <= a < 2 ^ 32 -> 0 <= p <= 32 ->
  Z.land base (_ip_int_from_prefix p) = base -> 0 <= base < 2 ^ 32 ->
  contains {| network_address := base; netmask := _ip_int_from_prefix p; prefixlen := p |}
           (IPv4Address a)
  = in_block {| network_address := base; netmask := _ip_int_from_prefix p; prefixlen := p |} a.
Proof.
  intros Ha Hp Hbase Hb. unfold contains, in_block. simpl.
  rewrite land_netmask_div in Hbase |- * by lia.
  assert (Hk : 0 < 2 ^ (32 - p)) by (apply Z.pow_pos_nonneg; lia).
  set (k := 2 ^ (32 - p)) in *.
  pose proof (Z.div_mod a k ltac:(lia)) as Hdm.
  pose proof (Z.mod_pos_bound a k Hk) as Hmod.
  destruct (Z.eqb_spec (k * (a / k)) base) as [Heq|Hne].
  - symmetry. apply andb_true_intro. split; [apply Z.leb_le|apply Z.ltb_lt]; lia.
  - symmetry. apply andb_false_iff.
    destruct (Z.leb_spec base a); [|now left]. right. apply Z.ltb_ge.
    destruct (Z.lt_ge_cases a (base + k)) as [Hlt|]; [|lia].
    exfalso. apply Hne.
    rewrite <- Hbase. f_equal.
    symmetry. apply (Z.div_unique a k (base / k) (a - base)); [lia|].
    rewrite Hbase. lia.
Qed.

Lemma ip_network_contains net n a :
  ip_network net = Ok n -> 0 <= a < 2 ^ 32 ->
  contains n (IPv4Address a) = in_block n a.
Proof.
  unfold ip_network. intros H Ha.
  assert (Hmk : forall addr plen,
    IPv4Network_init addr plen = Ok n -> (forall p, plen = Some p -> 0 <= p <= 32) ->
    contains n (IPv4Address a) = in_block n a).
  { unfold IPv4Network_init. intros addr plen Hmk Hplen.
    destruct (_ip_int_from_string addr) as [a0|] eqn:Ha0; [|discriminate].
    destruct plen as [p|]; [|discriminate]. simpl in Hmk.
    destruct (Z.eqb_spec (Z.land a0 (_ip_int_from_prefix p)) a0); [|discriminate].
    simpl in Hmk. injection Hmk as <-.
    apply contains_in_block; eauto using _ip_int_from_string_range. }
  destruct (split "/" net) as [|addr [|mask [|? ?]]]; try discriminate.
  - apply (Hmk _ _ H). intros p [= <-]. unfold _max_prefixlen. lia.
  - apply (Hmk _ _ H). intros p. apply _prefix_from_prefix_string_range.
Qed.

(** *** [is_bogon_ip] on an IPv4 address is the range test *)

Lemma is_bogon_ip_for_blocks (a : Z) nets parsed :
  0 <= a < 2 ^ 32 ->
  Forall2 (fun net n => ip_network net = Ok n) nets parsed ->
  is_bogon_ip_for (IPv4Address a) nets = Ok (existsb (fun n => in_block n a) parsed).
Proof.
  intros Ha. induction 1 as [|net n nets parsed Hn _ IH]; [reflexivity|].
  cbn [is_bogon_ip_for existsb]. rewrite Hn. cbn [rbind].
  rewrite (ip_network_contains _ _ _ Hn Ha).
  destruct (in_block n a); [reflexivity|exact IH].
Qed.

Lemma BOGON_IP_RANGES_parse :
  Forall2 (fun net n => ip_network net = Ok n) BOGON_IP_RANGES bogon_blocks.
Proof. repeat constructor. Qed.

Lemma ip_address_ipv4_range ip6 s a : ip_address ip6 s = Ok (IPv4Address a) -> 0 <= a < 2 ^ 32.
Proof.
  unfold ip_address. destruct (_ip_int_from_string s) as [n|] eqn:Hn.
  - intros [= <-]. eauto using _ip_int_from_string_range.
  - destruct (ip6 s); discriminate.
Qed.

Lemma is_bogon_ip_ipv4 ip6 s a :
  ip_address ip6 s = Ok (IPv4Address a) ->
  is_bogon_ip ip6 s = Ok (existsb (fun n => in_block n a) bogon_blocks).
Proof.
  intros H. unfold is_bogon_ip. rewrite H. cbn [rbind].
  apply is_bogon_ip_for_blocks; [eauto using ip_address_ipv4_range|].
  apply BOGON_IP_RANGES_parse.
Qed.
Lemma not_bogon_intro a :
  (forall n, In n bogon_blocks -> in_block n a = false) ->
  existsb (fun n => in_block n a) bogon_blocks = false.
Proof.
  intros H. apply not_true_is_false. intros Hex.
  apply existsb_exists in Hex as (n & Hin & Hn). rewrite (H n Hin) in Hn. discriminate.
Qed.

(** C3. For the text of every IPv4 address: if the address lies in one of
    the configured bogon CIDR ranges, [is_bogon_ip] returns [True]; if it is
    an RFC 1918 private address (10.0.0.0/8, 172.16.0.0/12, 192.168.0.0/16),
    it returns [False]; if it is globally routable, it returns [False]. *)
Theorem is_bogon_ip_classification (ip6 : string -> option Z) (s : string) (a : Z) :
  ip_address ip6 s = Ok (IPv4Address a) ->
  (forall net n, In net BOGON_IP_RANGES -> ip_network net = Ok n ->
                 in_block n a = true -> is_bogon_ip ip6 s = Ok true)
  /\ (rfc1918 a = true -> is_bogon_ip ip6 s = Ok false)
  /\ (globally_routable a = true -> is_bogon_ip ip6 s = Ok false).
Proof.
  intros Hs. rewrite (is_bogon_ip_ipv4 ip6 s a Hs). split; [|split].
  - intros net n Hin Hn Hblk. f_equal. apply existsb_exists. exists n. split; [|exact Hblk].
    pose proof BOGON_IP_RANGES_parse as Hp.
    clear Hblk Hs. induction Hp as [|net' n' ? ? Hn' _ IH]; [destruct Hin|].
    destruct Hin as [->|Hin]; [left; congruence|right; auto].
  - intros Hp. f_equal. apply not_bogon_intro. intros n Hin.
    unfold rfc1918, cidr, ipv4 in Hp.
    unfold bogon_blocks in Hin. simpl in Hin.
    repeat (destruct Hin as [<-|Hin]; [unfold in_block; cbn in *; lia|]). destruct Hin.
  - intros Hg. f_equal. apply not_bogon_intro. intros n Hin.
    unfold globally_routable, special_purpose_blocks, cidr, ipv4 in Hg. cbn [existsb] in Hg.
    unfold bogon_blocks in Hin. simpl in Hin.
    repeat (destruct Hin as [<-|Hin]; [unfold in_block; cbn in *; lia|]). destruct Hin.
Qed.

(** At 127.0.0.1 (bogon), 192.168.1.10 (private) and 8.8.8.8 (global). *)
Lemma is_bogon_ip_classification_witness :
  is_bogon_ip no_ipv6 "127.0.0.1" = Ok true
  /\ is_bogon_ip no_ipv6 "192.168.1.10" = Ok false
  /\ is_bogon_ip no_ipv6 "8.8.8.8" = Ok false.
Proof.
  split; [|split].
  - apply (proj1 (is_bogon_ip_classification no_ipv6 "127.0.0.1" (ipv4 127 0 0 1) eq_refl)
             "127.0.0.0/8"
             {| network_address := ipv4 127 0 0 0; netmask := ipv4 255 0 0 0; prefixlen := 8 |}).
    + right; left; reflexivity.
    + reflexivity.
    + reflexivity.
  - apply (proj1 (proj2 (is_bogon_ip_classification no_ipv6 "192.168.1.10"
                           (ipv4 192 168 1 10) eq_refl))).
    reflexivity.
  - apply (proj2 (proj2 (is_bogon_ip_classification no_ipv6 "8.8.8.8"
                           (ipv4 8 8 8 8) eq_refl))).
    reflexivity.
Defined.

(** *** The filter raises [ValueError] only *)

Lemma IPv4Network_init_raises addr plen e :
  IPv4Network_init addr plen = Raise e -> e = ValueError.
Proof.
  unfold IPv4Network_init.
  destruct (_ip_int_from_string addr) as [a|]; [|congruence].
  destruct plen as [p|]; [|congruence].
  cbn zeta. destruct (negb _); congruence.
Qed.

Lemma ip_network_raises net e : ip_network net = Raise e -> e = ValueError.
Proof.
  unfold ip_network.
  destruct (split "/" net) as [|addr [|mask [|? ?]]];
    eauto using IPv4Network_init_raises; congruence.
Qed.

Lemma is_bogon_ip_for_raises obj nets e :
  is_bogon_ip_for obj nets = Raise e -> e = ValueError.
Proof.
  induction nets as [|net nets IH]; cbn [is_bogon_ip_for]; [discriminate|].
  destruct (ip_network net) as [n|e'] eqn:Hn; cbn [rbind].
  - destruct (contains n obj); [discriminate|exact IH].
  - intros [= <-]. eauto using ip_network_raises.
Qed.

Lemma is_bogon_ip_raises ip6 s e : is_bogon_ip ip6 s = Raise e -> e = ValueError.
Proof.
  unfold is_bogon_ip.
  destruct (ip_address ip6 s) as [obj|e'] eqn:Hobj; cbn [rbind].
  - apply is_bogon_ip_for_raises.
  - intros [= <-]. unfold ip_address in Hobj.
    destruct (_ip_int_from_string s); [discriminate|].
    destruct (ip6 s); congruence.
Qed.

(** ** The query engine *)

Lemma bool_decide_is_Some_None {A} (o : option A) :
  o = None -> bool_decide (is_Some o) = false.
Proof. intros ->. apply bool_decide_eq_false. intros [? ?]. discriminate. Qed.

Lemma bool_decide_is_Some_Some {A} (o : option A) (a : A) :
  o = Some a -> bool_decide (is_Some o) = true.
Proof. intros ->. apply bool_decide_eq_true. eauto. Qed.

(** *** The four paths of [handle_dns_query] *)

Lemma handle_dns_query_bogon ip6 net data addr st :
  is_bogon_ip ip6 (fst addr) = Ok true ->
  sendto_error net local_response addr = None ->
  handle_dns_query ip6 net data addr st =
  (Ok tt,
   {| static_ip_mappings := static_ip_mappings st;
      log := log st ++ [(INFO, Received_DNS_query_from (fst addr));
                        (INFO, Blocked_bogon_request_from (fst addr))];
      posted := posted st;
      sent := sent st ++ [(local_response, addr)] |}).
Proof.
  intros Hbogon Hsend. run_engine. engine_step Hbogon. engine_step Hsend.
  now rewrite <- !app_assoc.
Qed.

Lemma handle_dns_query_static ip6 net data addr st static_ip :
  is_bogon_ip ip6 (fst addr) = Ok false ->
  static_ip_mappings st !! parse_dns_query_for_hostname data = Some static_ip ->
  sendto_error net (construct_dns_response data (create_static_ip_dns_response static_ip))
               addr = None ->
  handle_dns_query ip6 net data addr st =
  (Ok tt,
   {| static_ip_mappings := static_ip_mappings st;
      log := log st ++ [(INFO, Received_DNS_query_from (fst addr));
                        (INFO, Responding_with_static_IP_for
                                 (parse_dns_query_for_hostname data) static_ip)];
      posted := posted st;
      sent := sent st ++
              [(construct_dns_response data (create_static_ip_dns_response static_ip),
                addr)] |}).
Proof.
  intros Hbogon Hsome Hsend. run_engine. engine_step Hbogon.
  engine_step (bool_decide_is_Some_Some _ _ Hsome). engine_step Hsome.
  engine_step Hsend. now rewrite <- !app_assoc.
Qed.

Lemma handle_dns_query_forwarded ip6 net data addr st response :
  is_bogon_ip ip6 (fst addr) = Ok false ->
  static_ip_mappings st !! parse_dns_query_for_hostname data = None ->
  doh_answer net DOH_SERVER data = Ok response ->
  status_code response = 200 ->
  sendto_error net (construct_dns_response data (content response)) addr = None ->
  handle_dns_query ip6 net data addr st =
  (Ok tt,
   {| static_ip_mappings := static_ip_mappings st;
      log := log st ++ [(INFO, Received_DNS_query_from (fst addr));
                        (INFO, Forwarded_query_to_DoH_server DOH_SERVER);
                        (INFO, DoH_server_response_status 200);
                        (INFO, Forwarded_response_to addr)];
      posted := posted st ++ [(DOH_SERVER, data)];
      sent := sent st ++ [(construct_dns_response data (content response), addr)] |}).
Proof.
  intros Hbogon Hnone Hpost Hstatus Hsend. run_engine. engine_step Hbogon.
  engine_step (bool_decide_is_Some_None _ Hnone). engine_step Hpost.
  rewrite Hstatus. engine_step Z.eqb_refl. engine_step Hsend.
  now rewrite <- !app_assoc.
Qed.

Lemma handle_dns_query_upstream_error ip6 net data addr st response :
  is_bogon_ip ip6 (fst addr) = Ok false ->
  static_ip_mappings st !! parse_dns_query_for_hostname data = None ->
  doh_answer net DOH_SERVER data = Ok response ->
  status_code response <> 200 ->
  handle_dns_query ip6 net data addr st =
  (Ok tt,
   {| static_ip_mappings := static_ip_mappings st;
      log := log st ++ [(INFO, Received_DNS_query_from (fst addr));
                        (INFO, Forwarded_query_to_DoH_server DOH_SERVER);
                        (INFO, DoH_server_response_status (status_code response));
                        (ERROR, Error_forwarding_query (status_code response))];
      posted := posted st ++ [(DOH_SERVER, data)];
      sent := sent st |}).
Proof.
  intros Hbogon Hnone Hpost Hstatus. run_engine. engine_step Hbogon.
  engine_step (bool_decide_is_Some_None _ Hnone). engine_step Hpost.
  apply Z.eqb_neq in Hstatus. engine_step Hstatus. now rewrite <- !app_assoc.
Qed.

(** *** Re-framing *)

Lemma construct_dns_response_transaction_id (query response : bytes) :
  (2 <= length query)%nat ->
  transaction_id (construct_dns_response query response) = transaction_id query.
Proof.
  intros Hq. unfold transaction_id, construct_dns_response, extract_transaction_id, slice_to.
  destruct query as [|b0 [|b1 rest]]; simpl in Hq; try lia. reflexivity.
Qed.

Lemma construct_dns_response_tail (query response : bytes) (i : nat) :
  (2 <= length query)%nat -> (2 <= i)%nat ->
  nth_error (construct_dns_response query response) i = nth_error response i.
Proof.
  intros Hq Hi. unfold construct_dns_response, extract_transaction_id, slice_to, slice_from.
  destruct query as [|b0 [|b1 rest]]; simpl in Hq; try lia.
  destruct i as [|[|i]]; try lia. cbn [firstn app nth_error].
  destruct response as [|r0 [|r1 response]]; cbn [skipn nth_error]; try reflexivity.
  all: now destruct i.
Qed.

(** C1. For every original query of at least 2 bytes that is forwarded, and
    every upstream DoH response returned with HTTP status 200, the reply
    sent to the client is the first two bytes of the query (the transaction
    ID) followed by the bytes of the upstream response from offset 2 on:
    its transaction ID is the query's, and every byte at an offset of 2 or
    more is the byte of the upstream response at that offset. *)
Theorem forwarded_reply_splices_transaction_id
    (ip6 : string -> option Z) (net : Network) (data : bytes) (addr : address)
    (st : State) (response : Response) :
  (2 <= length data)%nat ->
  is_bogon_ip ip6 (fst addr) = Ok false ->
  static_ip_mappings st !! parse_dns_query_for_hostname data = None ->
  doh_answer net DOH_SERVER data = Ok response ->
  status_code response = 200 ->
  sendto_error net (construct_dns_response data (content response)) addr = None ->
  let reply := (firstn 2 data ++ skipn 2 (content response))%list in
  fst (handle_dns_query ip6 net data addr st) = Ok tt
  /\ sent (snd (handle_dns_query ip6 net data addr st)) = (sent st ++ [(reply, addr)])%list
  /\ transaction_id reply = transaction_id data
  /\ (forall i, (2 <= i)%nat -> nth_error reply i = nth_error (content response) i).
Proof.
  intros Hlen Hbogon Hnone Hpost Hstatus Hsend reply.
  rewrite (handle_dns_query_forwarded _ _ _ _ _ _ Hbogon Hnone Hpost Hstatus Hsend).
  repeat split.
  - apply construct_dns_response_transaction_id, Hlen.
  - intros i Hi. apply construct_dns_response_tail; assumption.
Qed.

(** A query with ID 0xABCD, an upstream answer with ID 0x1234. *)
Lemma forwarded_reply_splices_transaction_id_witness :
  sent (snd (handle_dns_query no_ipv6 (upstream 200 answer_1234) query_abcd
                              ("8.8.8.8", 40000) empty_state))
  = [((Byte.xab :: Byte.xcd :: skipn 2 answer_1234), ("8.8.8.8", 40000))].
Proof.
  apply (forwarded_reply_splices_transaction_id no_ipv6 (upstream 200 answer_1234)
           query_abcd ("8.8.8.8", 40000) empty_state
           {| status_code := 200; content := answer_1234 |}).
  - simpl. lia.
  - reflexivity.
  - reflexivity.
  - reflexivity.
  - reflexivity.
  - reflexivity.
Defined.

(** C2. What the code does for a query whose source address is classified
    as bogon: it is not dropped and nothing is forwarded, but the reply is
    the fixed [local_response], whose first two bytes are 00 00 whatever the
    transaction ID of the query, and whose ANCOUNT field is 1, not 0. *)
Theorem bogon_source_gets_fixed_reply
    (ip6 : string -> option Z) (net : Network) (data : bytes) (addr : address)
    (st : State) :
  is_bogon_ip ip6 (fst addr) = Ok true ->
  sendto_error net local_response addr = None ->
  fst (handle_dns_query ip6 net data addr st) = Ok tt
  /\ sent (snd (handle_dns_query ip6 net data addr st))
     = (sent st ++ [(local_response, addr)])%list
  /\ posted (snd (handle_dns_query ip6 net data addr st)) = posted st
  /\ transaction_id local_response = [Byte.x00; Byte.x00]
  /\ ANCOUNT local_response = Some 1.
Proof.
  intros Hbogon Hsend. rewrite (handle_dns_query_bogon _ _ _ _ _ Hbogon Hsend).
  repeat split.
Qed.

(** A query with ID 0xABCD from 127.0.0.1 is answered with ID 0x0000. *)
Lemma bogon_source_gets_fixed_reply_witness :
  transaction_id query_abcd = [Byte.xab; Byte.xcd]
  /\ sent (snd (handle_dns_query no_ipv6 (upstream 200 answer_1234) query_abcd
                                 ("127.0.0.1", 40000) empty_state))
     = [(local_response, ("127.0.0.1", 40000))]
  /\ transaction_id local_response = [Byte.x00; Byte.x00]
  /\ ANCOUNT local_response = Some 1.
Proof.
  split; [reflexivity|].
  pose proof (bogon_source_gets_fixed_reply no_ipv6 (upstream 200 answer_1234)
                query_abcd ("127.0.0.1", 40000) empty_state eq_refl eq_refl)
    as (_ & Hsent & _ & Hid & Han).
  exact (conj Hsent (conj Hid Han)).
Defined.

(** *** The static override path *)

Lemma create_static_ip_dns_response_reframed (data : bytes) (ip : string) :
  construct_dns_response data (create_static_ip_dns_response ip) = firstn 2 data.
Proof.
  unfold construct_dns_response, create_static_ip_dns_response, extract_transaction_id,
    slice_to, slice_from.
  cbn [skipn]. apply app_nil_r.
Qed.

Lemma occurs_in_length (sub msg : bytes) :
  occurs_in sub msg -> (length sub <= length msg)%nat.
Proof. intros (before & after & ->). rewrite !length_app. lia. Qed.

(** C4. What the code does for a query whose extracted hostname has an
    entry in the static override table: the reply is the first two bytes of
    the query and nothing else, so it holds no answer record: no run of 4
    bytes, the mapped address or any other, occurs in it. *)
Theorem static_override_reply_is_transaction_id_only
    (ip6 : string -> option Z) (net : Network) (data : bytes) (addr : address)
    (st : State) (static_ip : string) :
  is_bogon_ip ip6 (fst addr) = Ok false ->
  static_ip_mappings st !! parse_dns_query_for_hostname data = Some static_ip ->
  sendto_error net (firstn 2 data) addr = None ->
  fst (handle_dns_query ip6 net data addr st) = Ok tt
  /\ sent (snd (handle_dns_query ip6 net data addr st))
     = (sent st ++ [(firstn 2 data, addr)])%list
  /\ (forall rdata : bytes, length rdata = 4%nat -> ~ occurs_in rdata (firstn 2 data)).
Proof.
  intros Hbogon Hsome Hsend.
  rewrite <- (create_static_ip_dns_response_reframed data static_ip) in Hsend.
  rewrite (handle_dns_query_static _ _ _ _ _ _ Hbogon Hsome Hsend).
  rewrite create_static_ip_dns_response_reframed.
  repeat split. intros rdata Hlen Hocc.
  apply occurs_in_length in Hocc. rewrite Hlen, length_firstn in Hocc. lia.
Qed.

(** The override [example.com -> 10.0.0.5] and a query for [example.com]. *)
Lemma static_override_reply_is_transaction_id_only_witness :
  static_ip_mappings override_state !! "example.com" = Some "10.0.0.5"
  /\ sent (snd (handle_dns_query no_ipv6 (upstream 200 answer_1234) query_abcd
                                 ("192.168.1.10", 40000) override_state))
     = [([Byte.xab; Byte.xcd], ("192.168.1.10", 40000))].
Proof.
  split; [reflexivity|].
  apply (static_override_reply_is_transaction_id_only no_ipv6 (upstream 200 answer_1234)
           query_abcd ("192.168.1.10", 40000) override_state "10.0.0.5");
    reflexivity.
Defined.

(** C5. What the code does with a query shorter than 12 bytes: hostname
    extraction does not fail, it returns ["example.com"]; the query is
    forwarded upstream as it is, and on HTTP status 200 a reply is sent to
    the client. *)
Theorem short_query_is_forwarded_and_answered
    (ip6 : string -> option Z) (net : Network) (data : bytes) (addr : address)
    (st : State) (response : Response) :
  (length data < 12)%nat ->
  is_bogon_ip ip6 (fst addr) = Ok false ->
  static_ip_mappings st !! "example.com" = None ->
  doh_answer net DOH_SERVER data = Ok response ->
  status_code response = 200 ->
  sendto_error net (construct_dns_response data (content response)) addr = None ->
  parse_dns_query_for_hostname data = "example.com"
  /\ fst (handle_dns_query ip6 net data addr st) = Ok tt
  /\ posted (snd (handle_dns_query ip6 net data addr st))
     = (posted st ++ [(DOH_SERVER, data)])%list
  /\ sent (snd (handle_dns_query ip6 net data addr st))
     = (sent st ++ [(construct_dns_response data (content response), addr)])%list.
Proof.
  intros _ Hbogon Hnone Hpost Hstatus Hsend.
  rewrite (handle_dns_query_forwarded _ _ _ _ _ _ Hbogon Hnone Hpost Hstatus Hsend).
  repeat split.
Qed.

(** A query of 5 bytes. *)
Lemma short_query_is_forwarded_and_answered_witness :
  length query_5_bytes = 5%nat
  /\ posted (snd (handle_dns_query no_ipv6 (upstream 200 answer_1234) query_5_bytes
                                   ("8.8.8.8", 40000) empty_state))
     = [(DOH_SERVER, query_5_bytes)]
  /\ sent (snd (handle_dns_query no_ipv6 (upstream 200 answer_1234) query_5_bytes
                                 ("8.8.8.8", 40000) empty_state))
     = [((Byte.xab :: Byte.xcd :: skipn 2 answer_1234), ("8.8.8.8", 40000))].
Proof.
  split; [reflexivity|].
  pose proof (short_query_is_forwarded_and_answered no_ipv6 (upstream 200 answer_1234)
                query_5_bytes ("8.8.8.8", 40000) empty_state
                {| status_code := 200; content := answer_1234 |}) as H.
  destruct H as (_ & _ & Hposted & Hsent); try reflexivity.
  - simpl. lia.
  - exact (conj Hposted Hsent).
Defined.

(** ** The listener loop *)

Lemma handle_dns_query_raises ip6 net data addr st e st1 :
  handle_dns_query ip6 net data addr st = (Raise e, st1) ->
  e = ValueError \/ e = KeyError
  \/ doh_answer net DOH_SERVER data = Raise e
  \/ exists payload, sendto_error net payload addr = Some e.
Proof.
  run_engine.
  destruct (is_bogon_ip ip6 (fst addr)) as [[|]|e0] eqn:Hbogon; engine_simpl.
  - destruct (sendto_error net local_response addr) eqn:Hsend; intros [= <- <-]; eauto 6.
  - destruct (bool_decide _); engine_simpl.
    + destruct (static_ip_mappings st !! parse_dns_query_for_hostname data) as [ip|];
        engine_simpl.
      * destruct (sendto_error net _ addr) eqn:Hsend; intros [= <- <-]; eauto 6.
      * intros [= <- <-]; eauto.
    + destruct (doh_answer net DOH_SERVER data) as [response|e0] eqn:Hpost; engine_simpl.
      * destruct (status_code response =? 200); engine_simpl; [|discriminate].
        destruct (sendto_error net _ addr) eqn:Hsend; engine_simpl;
          intros [= <- <-]; eauto 6.
      * intros [= <- <-]; eauto.
  - intros [= <- <-]. left. eauto using is_bogon_ip_raises.
Qed.

Lemma receive_and_handle_raises ip6 ev st e st1 :
  raises_only_errors ev ->
  receive_and_handle ip6 ev st = (Raise e, st1) ->
  isinstance_Exception e = true.
Proof.
  intros (Harr & Hpost & Hsend). unfold receive_and_handle, sock_recvfrom, bind.
  destruct (arrival ev) as [[datagram addr]|e0] eqn:Hev.
  - unfold ret. cbn [fst snd]. intros H.
    apply handle_dns_query_raises in H as [->|[->|[H|[payload H]]]]; eauto.
  - unfold raise. intros [= <- <-]. eauto.
Qed.

Lemma loop_body_catches ip6 ev st e st1 :
  receive_and_handle ip6 ev st = (Raise e, st1) ->
  isinstance_Exception e = true ->
  loop_body ip6 ev st = (Ok tt, snd (logging_error (Error e) st1)).
Proof.
  intros Hrun He. unfold loop_body, try_except_Exception. rewrite Hrun, He. reflexivity.
Qed.

Lemma loop_body_passes ip6 ev st st1 :
  receive_and_handle ip6 ev st = (Ok tt, st1) ->
  loop_body ip6 ev st = (Ok tt, st1).
Proof.
  intros Hrun. unfold loop_body, try_except_Exception. now rewrite Hrun.
Qed.

(** C6. For every forwarded query where the upstream DoH endpoint returns
    an HTTP status other than 200: handling returns normally, nothing is
    sent to the client, the last record logged is the error with the status,
    and the listener loop goes on with the next turn. *)
Theorem upstream_error_is_logged_and_dropped
    (ip6 : string -> option Z) (ev : Event) (payload : bytes) (addr : address)
    (response : Response) (rest : list Event) (st : State) :
  arrival ev = Ok (payload, addr) ->
  is_bogon_ip ip6 (fst addr) = Ok false ->
  static_ip_mappings st !! parse_dns_query_for_hostname (slice_to 512 payload) = None ->
  doh_answer (network ev) DOH_SERVER (slice_to 512 payload) = Ok response ->
  status_code response <> 200 ->
  exists st',
    handle_dns_query ip6 (network ev) (slice_to 512 payload) addr st = (Ok tt, st')
    /\ posted st' = (posted st ++ [(DOH_SERVER, slice_to 512 payload)])%list
    /\ sent st' = sent st
    /\ log st'
       = (log st ++ [(INFO, Received_DNS_query_from (fst addr));
                     (INFO, Forwarded_query_to_DoH_server DOH_SERVER);
                     (INFO, DoH_server_response_status (status_code response));
                     (ERROR, Error_forwarding_query (status_code response))])%list
    /\ while_True ip6 (ev :: rest) st = while_True ip6 rest st'.
Proof.
  intros Hev Hbogon Hnone Hpost Hstatus.
  pose proof (handle_dns_query_upstream_error _ _ _ _ _ _ Hbogon Hnone Hpost Hstatus)
    as Hrun.
  eexists. split; [exact Hrun|]. cbn [posted sent log]. repeat split.
  cbn [while_True]. rewrite (loop_body_passes _ _ _ _ ltac:(
      unfold receive_and_handle, sock_recvfrom, bind; rewrite Hev; exact Hrun)).
  reflexivity.
Qed.

(** Upstream answers 502. *)
Lemma upstream_error_is_logged_and_dropped_witness :
  exists st',
    handle_dns_query no_ipv6 (upstream 502 []) query_abcd ("8.8.8.8", 40000) empty_state
    = (Ok tt, st')
    /\ sent st' = []
    /\ log st' = [(INFO, Received_DNS_query_from "8.8.8.8");
                  (INFO, Forwarded_query_to_DoH_server DOH_SERVER);
                  (INFO, DoH_server_response_status 502);
                  (ERROR, Error_forwarding_query 502)]
    /\ while_True no_ipv6 [datagram query_abcd "8.8.8.8" (upstream 502 [])] empty_state
       = Running st'.
Proof.
  destruct (upstream_error_is_logged_and_dropped no_ipv6
              (datagram query_abcd "8.8.8.8" (upstream 502 [])) query_abcd
              ("8.8.8.8", 40000) {| status_code := 502; content := [] |} []
              empty_state)
    as (st' & Hrun & _ & Hsent & Hlog & Hloop); try reflexivity.
  - simpl. lia.
  - exists st'. exact (conj Hrun (conj Hsent (conj Hlog Hloop))).
Defined.

(** C7. For every input byte sequence [parse_dns_query_for_hostname]
    returns the constant string ["example.com"], and for every address text
    [create_static_ip_dns_response] returns the empty byte string. *)
Theorem placeholders_ignore_their_input :
  (forall query : bytes, parse_dns_query_for_hostname query = "example.com")
  /\ (forall ip : string, create_static_ip_dns_response ip = []).
Proof. split; reflexivity. Qed.

(** C10, as the specification states it, fails: [KeyboardInterrupt] is an
    exception raised while receiving, and it is no instance of [Exception].
    It leaves the loop: the error is not logged and the datagram that
    arrives next is not received. *)
Lemma keyboard_interrupt_ends_the_loop :
  receive_and_handle no_ipv6 interrupted empty_state
  = (Raise KeyboardInterrupt, empty_state)
  /\ while_True no_ipv6
       [interrupted; datagram query_abcd "8.8.8.8" (upstream 200 answer_1234)]
       empty_state
     = Terminated KeyboardInterrupt empty_state.
Proof. split; reflexivity. Qed.

Lemma after_turn_loop_body ip6 ev st :
  raises_only_errors ev ->
  loop_body ip6 ev st = (Ok tt, after_turn ip6 ev st).
Proof.
  intros Hev. unfold after_turn.
  destruct (receive_and_handle ip6 ev st) as [[[]|e] st1] eqn:Hrun.
  - now apply loop_body_passes.
  - apply (loop_body_catches _ _ _ _ _ Hrun).
    eauto using receive_and_handle_raises.
Qed.

(** C10, amended. The listener loop is not terminated by an exception that
    is an instance of [Exception].  When receiving or handling a datagram
    raises such an exception, the turn ends normally in the state it had
    reached with one more record, the error, and the loop goes on with the
    next turn.  As long as [recvfrom], [requests.post] and [sendto] raise
    such exceptions only (the bogon check and the table lookup raise no
    others), the loop is running after any number of turns, in the state
    that handling every datagram in order, with every error logged, gives. *)
Theorem listener_loop_isolates_errors (ip6 : string -> option Z) :
  (forall ev st e st1,
      receive_and_handle ip6 ev st = (Raise e, st1) ->
      isinstance_Exception e = true ->
      loop_body ip6 ev st
      = (Ok tt,
         {| static_ip_mappings := static_ip_mappings st1;
            log := log st1 ++ [(ERROR, Error e)];
            posted := posted st1;
            sent := sent st1 |})
      /\ forall rest,
           while_True ip6 (ev :: rest) st
           = while_True ip6 rest
               {| static_ip_mappings := static_ip_mappings st1;
                  log := log st1 ++ [(ERROR, Error e)];
                  posted := posted st1;
                  sent := sent st1 |})
  /\ (forall events st,
         Forall raises_only_errors events ->
         while_True ip6 events st
         = Running (fold_left (fun s ev => after_turn ip6 ev s) events st)).
Proof.
  split.
  - intros ev st e st1 Hrun He.
    pose proof (loop_body_catches _ _ _ _ _ Hrun He) as Hbody.
    split; [exact Hbody|]. intros rest. cbn [while_True]. now rewrite Hbody.
  - intros events st Hall. revert st.
    induction Hall as [|ev events Hev _ IH]; intros st; [reflexivity|].
    cbn [while_True fold_left]. rewrite (after_turn_loop_body ip6 ev st Hev).
    apply IH.
Qed.

Lemma sample_turns_raise_only_errors :
  Forall raises_only_errors
    [datagram query_abcd "8.8.8.8" network_down;
     datagram query_abcd "8.8.8.8" (upstream 200 answer_1234)].
Proof.
  assert (Hturn : forall net,
            (forall url body e, doh_answer net url body = Raise e ->
                                isinstance_Exception e = true) ->
            (forall payload addr, sendto_error net payload addr = None) ->
            raises_only_errors (datagram query_abcd "8.8.8.8" net)).
  { intros net Hpost Hsend. split; [|split]; cbn.
    - discriminate.
    - exact Hpost.
    - intros payload addr e He. rewrite Hsend in He. discriminate. }
  constructor; [|constructor; [|constructor]].
  - apply Hturn; [|reflexivity]. cbn. now intros _ _ e [= <-].
  - apply Hturn; [|reflexivity]. cbn. discriminate.
Qed.

(** The upstream is unreachable for the first datagram of two: the error is
    logged, the second datagram is answered. *)
Lemma listener_loop_isolates_errors_witness :
  while_True no_ipv6
    [datagram query_abcd "8.8.8.8" network_down;
     datagram query_abcd "8.8.8.8" (upstream 200 answer_1234)] empty_state
  = Running
      {| static_ip_mappings := ∅;
         log := [(INFO, Received_DNS_query_from "8.8.8.8");
                 (ERROR, Error RequestException);
                 (INFO, Received_DNS_query_from "8.8.8.8");
                 (INFO, Forwarded_query_to_DoH_server DOH_SERVER);
                 (INFO, DoH_server_response_status 200);
                 (INFO, Forwarded_response_to ("8.8.8.8", 40000))];
         posted := [(DOH_SERVER, query_abcd); (DOH_SERVER, query_abcd)];
         sent := [(Byte.xab :: Byte.xcd :: skipn 2 answer_1234, ("8.8.8.8", 40000))] |}.
Proof.
  exact (proj2 (listener_loop_isolates_errors no_ipv6) _ empty_state
           sample_turns_raise_only_errors).
Defined.

(** ** The static override table *)

Lemma add_static_ip_mapping_table h ip st :
  table_after (add_static_ip_mapping h ip) st = <[h := ip]> (static_ip_mappings st).
Proof. reflexivity. Qed.

Lemma remove_static_ip_mapping_table h st :
  table_after (remove_static_ip_mapping h) st = delete h (static_ip_mappings st).
Proof.
  unfold table_after, remove_static_ip_mapping, bind, dict_contains, dict_delitem,
    logging_info, logging, ret.
  cbn beta iota zeta delta [fst snd].
  destruct (static_ip_mappings st !! h) as [v|] eqn:Hh.
  - rewrite (bool_decide_is_Some_Some (Some v) v eq_refl).
    cbn beta iota zeta delta [fst snd static_ip_mappings]. now rewrite Hh.
  - rewrite (bool_decide_is_Some_None None eq_refl). cbn [snd].
    symmetry. now apply delete_id.
Qed.

Lemma remove_static_ip_mapping_absent h st :
  static_ip_mappings st !! h = None -> remove_static_ip_mapping h st = (Ok tt, st).
Proof.
  intros Hh. unfold remove_static_ip_mapping, bind, dict_contains, ret.
  now rewrite (bool_decide_is_Some_None _ Hh).
Qed.

(** C8, as the specification states it, fails: a mapping added as
    [Example.COM] is not found under [example.com], by the table or by the
    engine's [in] test, and removing [example.com] leaves it in place. *)
Lemma static_table_is_case_sensitive :
  same_up_to_case "Example.COM" "example.com"
  /\ table_after (add_static_ip_mapping "Example.COM" "10.0.0.5") empty_state
       !! "example.com" = None
  /\ fst (dict_contains "example.com"
            (snd (add_static_ip_mapping "Example.COM" "10.0.0.5" empty_state)))
     = Ok false
  /\ table_after (remove_static_ip_mapping "example.com")
                 (snd (add_static_ip_mapping "Example.COM" "10.0.0.5" empty_state))
       !! "Example.COM" = Some "10.0.0.5".
Proof. repeat split. Qed.

(** C8, amended. The table compares hostnames exactly, letter case
    included: a mapping added under one spelling is found under that
    spelling and deleted by a remove under that spelling; under any other
    spelling the add changes no lookup and a remove leaves the added
    mapping in place. *)
Theorem static_table_matches_exact_spelling (h1 h2 ip : string) (st : State) :
  let st1 := snd (add_static_ip_mapping h1 ip st) in
  static_ip_mappings st1 !! h1 = Some ip
  /\ table_after (remove_static_ip_mapping h1) st1 !! h1 = None
  /\ (h1 <> h2 ->
      static_ip_mappings st1 !! h2 = static_ip_mappings st !! h2
      /\ table_after (remove_static_ip_mapping h2) st1 !! h1 = Some ip).
Proof.
  intros st1. rewrite !remove_static_ip_mapping_table.
  change (static_ip_mappings st1) with (<[h1 := ip]> (static_ip_mappings st)).
  split; [apply lookup_insert_eq|]. split; [apply lookup_delete_eq|].
  intros Hne. split; [now apply lookup_insert_ne|].
  rewrite lookup_delete_ne by congruence. apply lookup_insert_eq.
Qed.

(** [Example.COM] and [example.com] are different keys. *)
Lemma static_table_matches_exact_spelling_witness :
  table_after (add_static_ip_mapping "Example.COM" "10.0.0.5") empty_state
    !! "example.com" = (∅ : gmap string string) !! "example.com"
  /\ table_after (remove_static_ip_mapping "example.com")
                 (snd (add_static_ip_mapping "Example.COM" "10.0.0.5" empty_state))
       !! "Example.COM" = Some "10.0.0.5".
Proof.
  apply (proj2 (proj2 (static_table_matches_exact_spelling
                         "Example.COM" "example.com" "10.0.0.5" empty_state))).
  discriminate.
Defined.

(** C9. Adding the same (hostname, ip) mapping twice leaves the table as
    adding it once does, and removing a hostname that has no mapping
    returns normally and leaves the state unchanged. *)
Theorem static_table_add_idempotent_remove_absent (hostname ip : string) (st : State) :
  let once := add_static_ip_mapping hostname ip st in
  let twice := add_static_ip_mapping hostname ip (snd once) in
  fst twice = Ok tt
  /\ static_ip_mappings (snd twice) = static_ip_mappings (snd once)
  /\ (static_ip_mappings st !! hostname = None ->
      remove_static_ip_mapping hostname st = (Ok tt, st)).
Proof.
  intros once twice. split; [reflexivity|]. split.
  - change (static_ip_mappings (snd twice))
      with (<[hostname := ip]> (<[hostname := ip]> (static_ip_mappings st))).
    apply insert_insert_eq.
  - apply remove_static_ip_mapping_absent.
Qed.

(** Removing [absent.example] from a table that maps [example.com] only. *)
Lemma static_table_add_idempotent_remove_absent_witness :
  remove_static_ip_mapping "absent.example" override_state = (Ok tt, override_state).
Proof.
  apply (proj2 (proj2 (static_table_add_idempotent_remove_absent
                         "absent.example" "10.0.0.5" override_state))).
  reflexivity.
Defined.

(** ** Further properties of the engine *)

(** *** What a call adds *)

Lemma extend_extend st L1 P1 S1 L2 P2 S2 :
  extend (extend st L1 P1 S1) L2 P2 S2 = extend st (L1 ++ L2) (P1 ++ P2) (S1 ++ S2).
Proof. unfold extend. cbn [static_ip_mappings log posted sent]. now rewrite !app_assoc. Qed.

Lemma extend_nil st : extend st [] [] [] = st.
Proof. destruct st. unfold extend. cbn. now rewrite !app_nil_r. Qed.

(** Two states that agree on the override of the extracted hostname are
    handled alike, and what handling adds has a fixed shape. *)
Lemma handle_dns_query_frame ip6 net data addr st1 st2 :
  static_ip_mappings st1 !! parse_dns_query_for_hostname data
  = static_ip_mappings st2 !! parse_dns_query_for_hostname data ->
  exists r L P S,
    handle_dns_query ip6 net data addr st1
    = (r, extend st1 ((INFO, Received_DNS_query_from (fst addr)) :: L) P S)
    /\ handle_dns_query ip6 net data addr st2
       = (r, extend st2 ((INFO, Received_DNS_query_from (fst addr)) :: L) P S)
    /\ (P = [] \/ P = [(DOH_SERVER, data)])
    /\ (S = [] \/ exists payload, S = [(payload, addr)])
    /\ (P <> [] -> is_bogon_ip ip6 (fst addr) = Ok false
                   /\ static_ip_mappings st1 !! parse_dns_query_for_hostname data = None).
Proof.
  intros Hsame. run_engine.
  destruct (is_bogon_ip ip6 (fst addr)) as [[|]|e0] eqn:Hbogon; engine_simpl.
  - destruct (sendto_error net local_response addr) as [e|] eqn:Hsend.
    + exists (Raise e), [(INFO, Blocked_bogon_request_from (fst addr))], [], [].
      repeat split; auto; try frame_done. all: congruence.
    + exists (Ok tt), [(INFO, Blocked_bogon_request_from (fst addr))], [],
        [(local_response, addr)].
      repeat split; eauto; try frame_done. all: congruence.
  - destruct (static_ip_mappings st1 !! parse_dns_query_for_hostname data)
      as [ip|] eqn:Hlook; symmetry in Hsame; rewrite ?Hlook, ?Hsame.
    + rewrite (bool_decide_is_Some_Some (Some ip) ip eq_refl). engine_simpl.
      rewrite ?Hlook, ?Hsame. engine_simpl.
      destruct (sendto_error net
                  (construct_dns_response data (create_static_ip_dns_response ip)) addr)
        as [e|] eqn:Hsend.
      * exists (Raise e),
          [(INFO, Responding_with_static_IP_for (parse_dns_query_for_hostname data) ip)],
          [], [].
        repeat split; auto; try frame_done. all: congruence.
      * exists (Ok tt),
          [(INFO, Responding_with_static_IP_for (parse_dns_query_for_hostname data) ip)],
          [],
          [(construct_dns_response data (create_static_ip_dns_response ip), addr)].
        repeat split; eauto; try frame_done. all: congruence.
    + rewrite (bool_decide_is_Some_None None eq_refl). engine_simpl.
      destruct (doh_answer net DOH_SERVER data) as [response|e] eqn:Hpost; engine_simpl.
      * destruct (status_code response =? 200) eqn:Hstatus; engine_simpl.
        -- destruct (sendto_error net
                       (construct_dns_response data (content response)) addr)
             as [e|] eqn:Hsend; engine_simpl.
           ++ exists (Raise e),
                [(INFO, Forwarded_query_to_DoH_server DOH_SERVER);
                 (INFO, DoH_server_response_status (status_code response))],
                [(DOH_SERVER, data)], [].
              repeat split; auto; frame_done.
           ++ exists (Ok tt),
                [(INFO, Forwarded_query_to_DoH_server DOH_SERVER);
                 (INFO, DoH_server_response_status (status_code response));
                 (INFO, Forwarded_response_to addr)],
                [(DOH_SERVER, data)],
                [(construct_dns_response data (content response), addr)].
              repeat split; eauto; frame_done.
        -- exists (Ok tt),
             [(INFO, Forwarded_query_to_DoH_server DOH_SERVER);
              (INFO, DoH_server_response_status (status_code response));
              (ERROR, Error_forwarding_query (status_code response))],
             [(DOH_SERVER, data)], [].
           repeat split; auto; frame_done.
      * exists (Raise e), [], [(DOH_SERVER, data)], [].
        repeat split; auto; frame_done.
  - exists (Raise e0), [], [], []. repeat split; auto; try frame_done. all: congruence.
Qed.

(** X1. Whatever its outcome, a call of [handle_dns_query] leaves the
    static override table as it was, sends at most one datagram, addressed
    to the sender of the query, and first logs the receipt of the query. *)
Theorem handle_dns_query_replies_to_sender_only
    (ip6 : string -> option Z) (net : Network) (data : bytes) (addr : address)
    (st : State) :
  let st' := snd (handle_dns_query ip6 net data addr st) in
  static_ip_mappings st' = static_ip_mappings st
  /\ (sent st' = sent st \/ exists payload, sent st' = (sent st ++ [(payload, addr)])%list)
  /\ exists records,
       log st' = (log st ++ (INFO, Received_DNS_query_from (fst addr)) :: records)%list.
Proof.
  destruct (handle_dns_query_frame ip6 net data addr st st eq_refl)
    as (r & L & P & S & Hrun & _ & _ & HS & _).
  cbn zeta. rewrite Hrun. cbn [snd extend static_ip_mappings sent log].
  split; [reflexivity|]. split; [|eauto].
  destruct HS as [-> | [payload ->]]; [left; apply app_nil_r|right; eauto].
Qed.

(** X2. A call of [handle_dns_query] makes at most one HTTPS request; the
    request goes to [DOH_SERVER] with the query bytes unchanged as its body,
    and it is made only when the source is not bogon and ["example.com"]
    has no override. *)
Theorem handle_dns_query_posts_query_verbatim
    (ip6 : string -> option Z) (net : Network) (data : bytes) (addr : address)
    (st : State) :
  let st' := snd (handle_dns_query ip6 net data addr st) in
  posted st' = posted st
  \/ (posted st' = (posted st ++ [(DOH_SERVER, data)])%list
      /\ is_bogon_ip ip6 (fst addr) = Ok false
      /\ static_ip_mappings st !! "example.com" = None).
Proof.
  destruct (handle_dns_query_frame ip6 net data addr st st eq_refl)
    as (r & L & P & S & Hrun & _ & HP & _ & Hwhy).
  cbn zeta. rewrite Hrun. cbn [snd extend posted].
  destruct HP as [-> | ->]; [left; apply app_nil_r|right].
  split; [reflexivity|]. apply Hwhy. discriminate.
Qed.

(** X3. A mapping added for a hostname other than ["example.com"] has no
    effect on how a query is handled: the outcome, the datagrams sent and
    the requests posted are the same as without it. *)
Theorem other_hostnames_never_override
    (ip6 : string -> option Z) (net : Network) (data : bytes) (addr : address)
    (st : State) (hostname ip : string) :
  hostname <> "example.com" ->
  let before := handle_dns_query ip6 net data addr st in
  let after :=
    handle_dns_query ip6 net data addr (snd (add_static_ip_mapping hostname ip st)) in
  fst after = fst before
  /\ sent (snd after) = sent (snd before)
  /\ posted (snd after) = posted (snd before).
Proof.
  intros Hne before after.
  destruct (handle_dns_query_frame ip6 net data addr st
              (snd (add_static_ip_mapping hostname ip st)))
    as (r & L & P & S & Hrun1 & Hrun2 & _).
  { symmetry. apply (lookup_insert_ne (static_ip_mappings st)). exact Hne. }
  subst before after. rewrite Hrun1, Hrun2. repeat split.
Qed.

(** An override for [internal.example] and a query from 8.8.8.8. *)
Lemma other_hostnames_never_override_witness :
  sent (snd (handle_dns_query no_ipv6 (upstream 200 answer_1234) query_abcd
               ("8.8.8.8", 40000)
               (snd (add_static_ip_mapping "internal.example" "10.0.0.5" empty_state))))
  = sent (snd (handle_dns_query no_ipv6 (upstream 200 answer_1234) query_abcd
                 ("8.8.8.8", 40000) empty_state)).
Proof.
  apply (other_hostnames_never_override no_ipv6 (upstream 200 answer_1234) query_abcd
           ("8.8.8.8", 40000) empty_state "internal.example" "10.0.0.5").
  discriminate.
Defined.


Lemma loop_body_frame ip6 ev st :
  exists r L P S,
    loop_body ip6 ev st = (r, extend st L P S)
    /\ (r = Ok tt \/ exists e, r = Raise e /\ isinstance_Exception e = false)
    /\ (length P <= 1)%nat /\ Forall (turn_request ev) P
    /\ (length S <= 1)%nat /\ Forall (turn_reply ev) S.
Proof.
  unfold loop_body, try_except_Exception, receive_and_handle, sock_recvfrom, bind.
  destruct (arrival ev) as [[payload addr]|e] eqn:Hev.
  - unfold ret. cbn [fst snd].
    destruct (handle_dns_query_frame ip6 (network ev) (slice_to 512 payload) addr st st
                eq_refl) as (r & L & P & S & Hrun & _ & HP & HS & _).
    rewrite Hrun.
    assert (HP' : (length P <= 1)%nat /\ Forall (turn_request ev) P).
    { destruct HP as [-> | ->]; split; cbn; try lia; repeat constructor.
      exists payload, addr. split; [exact Hev|reflexivity]. }
    assert (HS' : (length S <= 1)%nat /\ Forall (turn_reply ev) S).
    { destruct HS as [-> | [reply ->]]; split; cbn; try lia; repeat constructor.
      exists payload. exact Hev. }
    destruct r as [[]|e].
    + do 4 eexists. split; [reflexivity|]. split; [now left|]. tauto.
    + destruct (isinstance_Exception e) eqn:He.
      * exists (Ok tt), (((INFO, Received_DNS_query_from (fst addr)) :: L)
                          ++ [(ERROR, Error e)])%list, P, S.
        split; [|split; [now left|tauto]].
        unfold logging_error, logging, extend. cbn [static_ip_mappings log posted sent].
        now rewrite <- app_assoc.
      * do 4 eexists. split; [reflexivity|]. split; [right; eauto|]. tauto.
  - unfold raise.
    destruct (isinstance_Exception e) eqn:He.
    + exists (Ok tt), [(ERROR, Error e)], [], [].
      split; [|split; [now left|]].
      * unfold logging_error, logging, extend. cbn [static_ip_mappings log posted sent].
        now rewrite !app_nil_r.
      * repeat split; cbn; try lia; constructor.
    + exists (Raise e), [], [], [].
      split; [now rewrite extend_nil|]. split; [right; eauto|].
      repeat split; cbn; try lia; constructor.
Qed.

Lemma while_True_frame ip6 events st :
  exists L P S,
    final_state (while_True ip6 events st) = extend st L P S
    /\ (length P <= length events)%nat
    /\ Forall (fun request => exists ev, In ev events /\ turn_request ev request) P
    /\ (length S <= length events)%nat
    /\ Forall (fun datagram => exists ev, In ev events /\ turn_reply ev datagram) S.
Proof.
  revert st. induction events as [|ev events IH]; intros st.
  - exists [], [], []. cbn. rewrite extend_nil. repeat split; auto.
  - cbn [while_True].
    destruct (loop_body_frame ip6 ev st)
      as (r & L & P & S & Hrun & Hr & HlenP & HP & HlenS & HS).
    rewrite Hrun.
    assert (HP' : Forall (fun request => exists ev', In ev' (ev :: events)
                                                     /\ turn_request ev' request) P).
    { eapply Forall_impl; [exact HP|]. intros; exists ev; split; [now left|auto]. }
    assert (HS' : Forall (fun datagram => exists ev', In ev' (ev :: events)
                                                      /\ turn_reply ev' datagram) S).
    { eapply Forall_impl; [exact HS|]. intros; exists ev; split; [now left|auto]. }
    destruct Hr as [-> | (e & -> & _)].
    + destruct (IH (extend st L P S))
        as (L2 & P2 & S2 & Hfin & HlenP2 & HP2 & HlenS2 & HS2).
      exists (L ++ L2)%list, (P ++ P2)%list, (S ++ S2)%list.
      rewrite Hfin, extend_extend. split; [reflexivity|].
      rewrite !length_app. cbn [length].
      repeat split; try lia; apply Forall_app; split; auto.
      all: eapply Forall_impl; [eassumption|]; intros ? (ev' & Hin & Hturn);
        exists ev'; split; [now right|auto].
    + exists L, P, S. cbn [final_state length]. repeat split; auto; lia.
Qed.

(** X6. The listener loop and [start_dns_server] never change the static
    override table, however many turns run and however they end. *)
Theorem listener_loop_never_changes_table
    (ip6 : string -> option Z) (host : Host) (events : list Event) (st : State) :
  static_ip_mappings (final_state (while_True ip6 events st)) = static_ip_mappings st
  /\ static_ip_mappings (final_state (start_dns_server ip6 host events st))
     = static_ip_mappings st.
Proof.
  assert (Hloop : forall st0,
    static_ip_mappings (final_state (while_True ip6 events st0)) = static_ip_mappings st0).
  { intros st0. destruct (while_True_frame ip6 events st0) as (L & P & S & -> & _).
    reflexivity. }
  split; [apply Hloop|].
  unfold start_dns_server.
  destruct (bind_error host); [reflexivity|].
  destruct (load_cert_chain_error host); [reflexivity|].
  rewrite Hloop. reflexivity.
Qed.

(** One turn posts at most its own request and sends at most one reply. *)
Lemma loop_body_turn ip6 ev st :
  exists r L P S,
    loop_body ip6 ev st = (r, extend st L P S)
    /\ (r = Ok tt \/ exists e, r = Raise e /\ isinstance_Exception e = false)
    /\ turn_posts ev P /\ turn_sends ev S.
Proof.
  destruct (loop_body_frame ip6 ev st)
    as (r & L & P & S & Hrun & Hr & HlenP & HP & HlenS & HS).
  exists r, L, P, S. split; [exact Hrun|]. split; [exact Hr|]. split.
  - destruct P as [|request [|? ?]]; [now left| |cbn in HlenP; lia].
    right. inversion HP as [|? ? (payload & addr & Hev & ->) _]; subst. eauto.
  - destruct S as [|[reply addr] [|? ?]]; [now left| |cbn in HlenS; lia].
    right. inversion HS as [|? ? (payload & Hev) _]; subst. cbn [snd] in Hev. eauto.
Qed.

Lemma while_True_turns ip6 events st :
  exists L (Ps : list (list (string * bytes))) (Ss : list (list (bytes * address))),
    final_state (while_True ip6 events st) = extend st L (concat Ps) (concat Ss)
    /\ length Ps = length Ss
    /\ (length Ps <= length events)%nat
    /\ Forall2 turn_posts (firstn (length Ps) events) Ps
    /\ Forall2 turn_sends (firstn (length Ss) events) Ss
    /\ (forall st', while_True ip6 events st = Running st' -> length Ps = length events).
Proof.
  revert st. induction events as [|ev events IH]; intros st.
  - exists [], [], []. cbn. rewrite extend_nil. repeat split; auto; constructor.
  - cbn [while_True].
    destruct (loop_body_turn ip6 ev st) as (r & L & P & S & Hrun & Hr & HP & HS).
    rewrite Hrun. destruct Hr as [-> | (e & -> & _)].
    + destruct (IH (extend st L P S))
        as (L2 & Ps & Ss & Hfin & Hlen & Hle & HPs & HSs & Hall).
      exists (L ++ L2)%list, (P :: Ps), (S :: Ss).
      rewrite Hfin, extend_extend. cbn [concat length firstn].
      split; [reflexivity|]. split; [lia|]. split; [lia|].
      split; [now constructor|]. split; [now constructor|].
      intros st' Hrunning. f_equal. eauto.
    + exists L, [P], [S]. cbn [final_state concat length firstn].
      rewrite !app_nil_r. split; [reflexivity|]. split; [reflexivity|].
      split; [lia|]. split; [constructor; [exact HP|constructor]|].
      split; [constructor; [exact HS|constructor]|]. discriminate.
Qed.

(** X7. The requests the listener loop posts are those of its turns, in
    order, and each turn posts at most one: none, or the request that
    carries to [DOH_SERVER] the first 512 bytes of the datagram that arrived
    in that very turn (a turn whose receive failed posts none).  No body is
    longer than 512 bytes: a longer datagram is forwarded truncated. *)
Theorem listener_loop_posts_at_most_512_bytes
    (ip6 : string -> option Z) (events : list Event) (st : State) :
  exists turns : list (list (string * bytes)),
    posted (final_state (while_True ip6 events st)) = (posted st ++ concat turns)%list
    /\ (length turns <= length events)%nat
    /\ Forall2 turn_posts (firstn (length turns) events) turns
    /\ Forall (fun request =>
                 fst request = DOH_SERVER /\ (length (snd request) <= 512)%nat)
              (concat turns).
Proof.
  destruct (while_True_turns ip6 events st)
    as (L & Ps & Ss & -> & _ & Hle & HPs & _).
  exists Ps. split; [reflexivity|]. split; [exact Hle|]. split; [exact HPs|].
  clear Hle. induction HPs as [|ev P evs Ps HP _ IH]; [constructor|].
  cbn [concat]. apply Forall_app. split; [|exact IH].
  destruct HP as [-> | (payload & addr & _ & ->)]; [constructor|].
  constructor; [|constructor]. cbn [fst snd]. split; [reflexivity|].
  rewrite length_firstn. lia.
Qed.

(** X8. The datagrams the listener loop sends are those of its turns, in
    order, and each turn sends at most one: none, or one datagram addressed
    to the sender of the datagram that arrived in that very turn. *)
Theorem listener_loop_replies_to_senders_only
    (ip6 : string -> option Z) (events : list Event) (st : State) :
  exists turns : list (list (bytes * address)),
    sent (final_state (while_True ip6 events st)) = (sent st ++ concat turns)%list
    /\ (length turns <= length events)%nat
    /\ Forall2 turn_sends (firstn (length turns) events) turns.
Proof.
  destruct (while_True_turns ip6 events st)
    as (L & Ps & Ss & -> & Hlen & Hle & _ & HSs & _).
  exists Ss. split; [reflexivity|]. split; [lia|exact HSs].
Qed.





(** X4. When [requests.post] raises on the forwarding path,
    [handle_dns_query] raises the same exception: the request was made, the
    receipt was logged, nothing is sent to the client. *)
Theorem upstream_transport_failure_sends_nothing
    (ip6 : string -> option Z) (net : Network) (data : bytes) (addr : address)
    (st : State) (e : exn) :
  is_bogon_ip ip6 (fst addr) = Ok false ->
  static_ip_mappings st !! "example.com" = None ->
  doh_answer net DOH_SERVER data = Raise e ->
  handle_dns_query ip6 net data addr st
  = (Raise e,
     extend st [(INFO, Received_DNS_query_from (fst addr))] [(DOH_SERVER, data)] []).
Proof.
  intros Hbogon Hnone Hpost.
  change "example.com" with (parse_dns_query_for_hostname data) in Hnone.
  run_engine. engine_step Hbogon.
  engine_step (bool_decide_is_Some_None _ Hnone). engine_step Hpost.
  unfold extend. now rewrite app_nil_r.
Qed.

(** The upstream is unreachable. *)
Lemma upstream_transport_failure_sends_nothing_witness :
  handle_dns_query no_ipv6 network_down query_abcd ("8.8.8.8", 40000) empty_state
  = (Raise RequestException,
     extend empty_state [(INFO, Received_DNS_query_from "8.8.8.8")]
            [(DOH_SERVER, query_abcd)] []).
Proof.
  apply (upstream_transport_failure_sends_nothing no_ipv6 network_down query_abcd
           ("8.8.8.8", 40000) empty_state RequestException); reflexivity.
Defined.

(** X5. When the sender's address is not the text of an IP address,
    [is_bogon_ip] raises [ValueError], and [handle_dns_query] raises it after
    logging the receipt, with nothing sent and nothing posted. *)
Theorem unparseable_sender_raises_ValueError
    (ip6 : string -> option Z) (net : Network) (data : bytes) (addr : address)
    (st : State) (e : exn) :
  ip_address ip6 (fst addr) = Raise e ->
  is_bogon_ip ip6 (fst addr) = Raise ValueError
  /\ handle_dns_query ip6 net data addr st
     = (Raise ValueError,
        extend st [(INFO, Received_DNS_query_from (fst addr))] [] []).
Proof.
  intros Haddr.
  assert (Hbogon : is_bogon_ip ip6 (fst addr) = Raise ValueError).
  { destruct (is_bogon_ip ip6 (fst addr)) as [b|e'] eqn:H.
    - unfold is_bogon_ip in H. rewrite Haddr in H. discriminate.
    - f_equal. eauto using is_bogon_ip_raises. }
  split; [exact Hbogon|]. run_engine. engine_step Hbogon.
  unfold extend. now rewrite !app_nil_r.
Qed.

(** The sender is given as [localhost]. *)
Lemma unparseable_sender_raises_ValueError_witness :
  is_bogon_ip no_ipv6 "localhost" = Raise ValueError
  /\ handle_dns_query no_ipv6 (upstream 200 answer_1234) query_abcd ("localhost", 40000)
       empty_state
     = (Raise ValueError,
        extend empty_state [(INFO, Received_DNS_query_from "localhost")] [] []).
Proof.
  apply (unparseable_sender_raises_ValueError no_ipv6 (upstream 200 answer_1234)
           query_abcd ("localhost", 40000) empty_state ValueError).
  reflexivity.
Defined.

Lemma is_bogon_ip_ipv6 ip6 s n :
  ip_address ip6 s = Ok (IPv6Address n) -> is_bogon_ip ip6 s = Ok false.
Proof.
  intros Hs. unfold is_bogon_ip. rewrite Hs. cbn [rbind].
  assert (H : forall nets parsed,
    Forall2 (fun net p => ip_network net = Ok p) nets parsed ->
    is_bogon_ip_for (IPv6Address n) nets = Ok false).
  { induction 1 as [|net p nets parsed Hp _ IH]; [reflexivity|].
    cbn [is_bogon_ip_for]. rewrite Hp. cbn [rbind contains]. exact IH. }
  apply (H _ _ BOGON_IP_RANGES_parse).
Qed.

(** X10. [is_bogon_ip] returns [False] for every text that [ip_address]
    reads as an IPv6 address: the configured ranges are IPv4 networks. *)
Theorem is_bogon_ip_ipv6_is_never_bogon
    (ip6 : string -> option Z) (s : string) (n : Z) :
  ip_address ip6 s = Ok (IPv6Address n) -> is_bogon_ip ip6 s = Ok false.
Proof.
  intros Hs. unfold is_bogon_ip. rewrite Hs. cbn [rbind].
  pose proof BOGON_IP_RANGES_parse as Hparse.
  induction Hparse as [|net p nets parsed Hp _ IH]; [reflexivity|].
  cbn [is_bogon_ip_for]. rewrite Hp. cbn [rbind contains]. exact IH.
Qed.

(** The IPv6 loopback address. *)
Lemma is_bogon_ip_ipv6_is_never_bogon_witness :
  is_bogon_ip loopback_ipv6 "::1" = Ok false.
Proof.
  apply (is_bogon_ip_ipv6_is_never_bogon loopback_ipv6 "::1" 1). reflexivity.
Defined.

(** X11. [is_bogon_ip] returns [True] only for the text of an IPv4 address
    that lies in one of the configured ranges. *)
Theorem is_bogon_ip_true_only_in_configured_range
    (ip6 : string -> option Z) (s : string) :
  is_bogon_ip ip6 s = Ok true ->
  exists a net n,
    ip_address ip6 s = Ok (IPv4Address a)
    /\ In net BOGON_IP_RANGES /\ ip_network net = Ok n /\ in_block n a = true.
Proof.
  intros Hb.
  destruct (ip_address ip6 s) as [[a|n]|e] eqn:Hs.
  - rewrite (is_bogon_ip_ipv4 ip6 s a Hs) in Hb.
    assert (Hex : existsb (fun n => in_block n a) bogon_blocks = true) by congruence.
    clear Hb. apply existsb_exists in Hex as (n & Hin & Hn).
    exists a. pose proof BOGON_IP_RANGES_parse as Hp.
    clear Hs. induction Hp as [|net' n' ? ? Hn' _ IH]; [destruct Hin|].
    destruct Hin as [->|Hin].
    + exists net', n. repeat split; auto. now left.
    + destruct (IH Hin) as (net & n0 & _ & Hin' & Hnet & Hblk).
      exists net, n0. repeat split; auto. now right.
  - rewrite (is_bogon_ip_ipv6 ip6 s n Hs) in Hb. discriminate.
  - unfold is_bogon_ip in Hb. rewrite Hs in Hb. discriminate.
Qed.

(** The link-local address 169.254.10.20. *)
Lemma is_bogon_ip_true_only_in_configured_range_witness :
  exists a net n,
    ip_address no_ipv6 "169.254.10.20" = Ok (IPv4Address a)
    /\ In net BOGON_IP_RANGES /\ ip_network net = Ok n /\ in_block n a = true.
Proof.
  apply (is_bogon_ip_true_only_in_configured_range no_ipv6 "169.254.10.20").
  reflexivity.
Defined.

(** X12. The reply built by [construct_dns_response] has as many bytes as
    the first two of the query that exist plus the bytes of the response
    after its first two: a response of at least 2 bytes to a query of at
    least 2 bytes keeps its length, a shorter query shortens the reply. *)
Theorem construct_dns_response_length (original_query response_data : bytes) :
  length (construct_dns_response original_query response_data)
  = (Nat.min 2 (length original_query) + (length response_data - 2))%nat.
Proof.
  unfold construct_dns_response, extract_transaction_id, slice_to, slice_from.
  now rewrite length_app, length_firstn, length_skipn.
Qed.

(** X13. [construct_dns_response] leaves unchanged a response that already
    starts with the query's transaction ID, and applying it twice with a
    query of at least 2 bytes gives what applying it once gives. *)
Theorem construct_dns_response_fixpoint (original_query response_data : bytes) :
  (transaction_id response_data = transaction_id original_query ->
   construct_dns_response original_query response_data = response_data)
  /\ ((2 <= length original_query)%nat ->
      construct_dns_response original_query
        (construct_dns_response original_query response_data)
      = construct_dns_response original_query response_data).
Proof.
  unfold construct_dns_response, extract_transaction_id, slice_to, slice_from,
    transaction_id.
  split.
  - intros <-. apply firstn_skipn.
  - intros Hlen. f_equal.
    destruct original_query as [|b0 [|b1 rest]]; cbn in Hlen; try lia. reflexivity.
Qed.

(** The sample query and answer. *)
Lemma construct_dns_response_fixpoint_witness :
  construct_dns_response query_abcd (Byte.xab :: Byte.xcd :: skipn 2 answer_1234)
  = Byte.xab :: Byte.xcd :: skipn 2 answer_1234
  /\ construct_dns_response query_abcd (construct_dns_response query_abcd answer_1234)
     = construct_dns_response query_abcd answer_1234.
Proof.
  split.
  - apply (proj1 (construct_dns_response_fixpoint query_abcd
                    (Byte.xab :: Byte.xcd :: skipn 2 answer_1234))).
    reflexivity.
  - apply (proj2 (construct_dns_response_fixpoint query_abcd answer_1234)).
    cbn. lia.
Defined.

(** X14. Adding a mapping for a hostname that had none and then removing
    it gives back the table as it was. *)
Theorem add_then_remove_restores_table (hostname ip : string) (st : State) :
  static_ip_mappings st !! hostname = None ->
  table_after (remove_static_ip_mapping hostname)
              (snd (add_static_ip_mapping hostname ip st))
  = static_ip_mappings st.
Proof.
  intros Hnone. rewrite remove_static_ip_mapping_table.
  change (static_ip_mappings (snd (add_static_ip_mapping hostname ip st)))
    with (<[hostname := ip]> (static_ip_mappings st)).
  rewrite delete_insert_eq. now apply delete_id.
Qed.

(** [internal.example] added to and removed from the sample table. *)
Lemma add_then_remove_restores_table_witness :
  table_after (remove_static_ip_mapping "internal.example")
              (snd (add_static_ip_mapping "internal.example" "10.0.0.7" override_state))
  = static_ip_mappings override_state.
Proof.
  apply (add_then_remove_restores_table "internal.example" "10.0.0.7" override_state).
  reflexivity.
Defined.

(** X15. Adding a second mapping for the same hostname replaces the first:
    the lookup gives the second address, and the table is the one that adding
    the second mapping alone gives. *)
Theorem add_static_ip_mapping_last_write_wins (hostname ip1 ip2 : string) (st : State) :
  let st2 := snd (add_static_ip_mapping hostname ip2
                    (snd (add_static_ip_mapping hostname ip1 st))) in
  static_ip_mappings st2 !! hostname = Some ip2
  /\ static_ip_mappings st2 = table_after (add_static_ip_mapping hostname ip2) st.
Proof.
  cbn zeta. rewrite add_static_ip_mapping_table.
  change (static_ip_mappings (snd (add_static_ip_mapping hostname ip2
            (snd (add_static_ip_mapping hostname ip1 st)))))
    with (<[hostname := ip2]> (<[hostname := ip1]> (static_ip_mappings st))).
  split; [apply lookup_insert_eq|apply insert_insert_eq].
Qed.

(** X16. Adds and removes of two different hostnames commute: the table
    does not depend on the order of the two calls. *)
Theorem static_table_operations_commute (h1 h2 ip1 ip2 : string) (st : State) :
  h1 <> h2 ->
  table_after (add_static_ip_mapping h2 ip2) (snd (add_static_ip_mapping h1 ip1 st))
  = table_after (add_static_ip_mapping h1 ip1) (snd (add_static_ip_mapping h2 ip2 st))
  /\ table_after (remove_static_ip_mapping h2) (snd (add_static_ip_mapping h1 ip1 st))
     = table_after (add_static_ip_mapping h1 ip1) (snd (remove_static_ip_mapping h2 st))
  /\ table_after (remove_static_ip_mapping h2) (snd (remove_static_ip_mapping h1 st))
     = table_after (remove_static_ip_mapping h1) (snd (remove_static_ip_mapping h2 st)).
Proof.
  intros Hne.
  rewrite !remove_static_ip_mapping_table, !add_static_ip_mapping_table.
  change (static_ip_mappings (snd (add_static_ip_mapping h1 ip1 st)))
    with (<[h1 := ip1]> (static_ip_mappings st)).
  change (static_ip_mappings (snd (add_static_ip_mapping h2 ip2 st)))
    with (<[h2 := ip2]> (static_ip_mappings st)).
  fold (table_after (remove_static_ip_mapping h1) st).
  fold (table_after (remove_static_ip_mapping h2) st).
  rewrite !remove_static_ip_mapping_table.
  split; [|split].
  - now apply insert_insert_ne.
  - symmetry. now apply insert_delete_ne.
  - apply delete_delete.
Qed.

(** [a.example] and [b.example]. *)
Lemma static_table_operations_commute_witness :
  table_after (add_static_ip_mapping "b.example" "10.0.0.2")
              (snd (add_static_ip_mapping "a.example" "10.0.0.1" empty_state))
  = table_after (add_static_ip_mapping "a.example" "10.0.0.1")
                (snd (add_static_ip_mapping "b.example" "10.0.0.2" empty_state)).
Proof.
  apply (static_table_operations_commute "a.example" "b.example" "10.0.0.1" "10.0.0.2"
           empty_state).
  discriminate.
Defined.

(** X17. [remove_static_ip_mapping] never raises, and removing the same
    hostname a second time changes nothing, not even the log. *)
Theorem remove_static_ip_mapping_twice (hostname : string) (st : State) :
  fst (remove_static_ip_mapping hostname st) = Ok tt
  /\ remove_static_ip_mapping hostname (snd (remove_static_ip_mapping hostname st))
     = (Ok tt, snd (remove_static_ip_mapping hostname st)).
Proof.
  split.
  - unfold remove_static_ip_mapping, bind, dict_contains, dict_delitem, logging_info,
      logging, ret.
    cbn beta iota zeta delta [fst snd].
    destruct (static_ip_mappings st !! hostname) as [v|] eqn:Hh.
    + rewrite (bool_decide_is_Some_Some (Some v) v eq_refl).
      cbn beta iota zeta delta [fst snd static_ip_mappings]. now rewrite Hh.
    + now rewrite (bool_decide_is_Some_None None eq_refl).
  - apply remove_static_ip_mapping_absent.
    fold (table_after (remove_static_ip_mapping hostname) st).
    rewrite remove_static_ip_mapping_table. apply lookup_delete_eq.
Qed.

(** ** Start-up *)

Module StartupFacts.
Import Startup.

Lemma after_nil w : after w [] [] = w.
Proof. destruct w. unfold after. cbn. now rewrite !app_nil_r. Qed.

Lemma after_after w c1 r1 c2 r2 :
  after (after w c1 r1) c2 r2 = after w (c1 ++ c2) (r1 ++ r2).
Proof. unfold after. world_simpl. now rewrite !app_assoc. Qed.

(** *** Directories and certificate files *)

Lemma ensure_directory_spec sys dir w :
  makedirs_behaves sys ->
  let r := fst (ensure_directory sys dir w) in
  let w' := snd (ensure_directory sys dir w) in
  files w ⊆ files w'
  /\ (forall p, p ∈ files w' -> p ∈ files w \/ String.prefix p dir = true)
  /\ signals w' = signals w /\ journal w' = journal w
  /\ (r = Done tt -> dir ∈ files w')
  /\ (dir ∈ files w -> ensure_directory sys dir w = (Done tt, w)).
Proof.
  intros Hsys. unfold ensure_directory, sbind, os_path_exists, os_makedirs, sret.
  destruct (decide (dir ∈ files w)) as [Hin|Hout].
  - rewrite (bool_decide_eq_true_2 _ Hin). world_simpl. cbn [negb].
    repeat split; auto.
  - rewrite (bool_decide_eq_false_2 _ Hout). world_simpl. cbn [negb].
    destruct (Hsys dir (files w)) as (Hkeep & Honly & Hdone).
    destruct (makedirs sys dir (files w)) as [r fs'] eqn:Hmk. world_simpl.
    cbn [fst snd] in *. repeat split; auto. intros Hin. contradiction.
Qed.

Lemma create_directories_and_files_unfold sys w :
  create_directories_and_files sys w
  = match ensure_directory sys (dirname LOG_FILE) w with
    | (Raised e, w1) => (Raised e, w1)
    | (Done _, w1) =>
        match ensure_directory sys (dirname PID_FILE) w1 with
        | (Raised e, w2) => (Raised e, w2)
        | (Done _, w2) =>
            if negb (bool_decide (CERTIFICATE_PATH ∈ files w2))
            then (Raised FileNotFoundError, w2)
            else if negb (bool_decide (KEY_PATH ∈ files w2))
                 then (Raised FileNotFoundError, w2)
                 else (Done tt, w2)
        end
    end.
Proof.
  assert (Hchecks : forall w2 : World,
    (if negb (bool_decide (CERTIFICATE_PATH ∈ files w2))
     then fun w0 : World => (Raised FileNotFoundError, w0)
     else fun w0 : World =>
       (if negb (bool_decide (KEY_PATH ∈ files w0))
        then fun w3 : World => (Raised FileNotFoundError, w3)
        else fun w3 : World => (@Done unit tt, w3)) w0) w2
    = if negb (bool_decide (CERTIFICATE_PATH ∈ files w2))
      then (Raised FileNotFoundError, w2)
      else if negb (bool_decide (KEY_PATH ∈ files w2))
           then (Raised FileNotFoundError, w2)
           else (Done tt, w2)).
  { intros w2. destruct (bool_decide (CERTIFICATE_PATH ∈ files w2)); cbn [negb];
      [|reflexivity].
    destruct (bool_decide (KEY_PATH ∈ files w2)); reflexivity. }
  unfold create_directories_and_files, ensure_directory, sbind, os_path_exists,
    os_makedirs, sraise, sret.
  world_simpl.
  destruct (bool_decide (dirname LOG_FILE ∈ files w)); cbn [negb]; world_simpl.
  - destruct (bool_decide (dirname PID_FILE ∈ files w)); cbn [negb]; world_simpl.
    + (lazymatch goal with |- _ ?w0 = _ => exact (Hchecks w0) end).
    + destruct (makedirs sys (dirname PID_FILE) (files w)) as [[[]|e] fs];
        world_simpl; [(lazymatch goal with |- _ ?w0 = _ => exact (Hchecks w0) end)|reflexivity].
  - destruct (makedirs sys (dirname LOG_FILE) (files w)) as [[[]|e] fs];
      world_simpl; [|reflexivity].
    destruct (bool_decide (dirname PID_FILE ∈ fs)); cbn [negb]; world_simpl.
    + (lazymatch goal with |- _ ?w0 = _ => exact (Hchecks w0) end).
    + destruct (makedirs sys (dirname PID_FILE) fs) as [[[]|e] fs'];
        world_simpl; [(lazymatch goal with |- _ ?w0 = _ => exact (Hchecks w0) end)|reflexivity].
Qed.

Lemma not_start_up_directory p :
  p = CERTIFICATE_PATH \/ p = KEY_PATH -> ~ start_up_directory p.
Proof. intros [-> | ->] [H|H]; discriminate H. Qed.

(** What a run of [create_directories_and_files] does, whatever its outcome. *)
Lemma create_directories_and_files_run sys w :
  makedirs_behaves sys ->
  let r := fst (create_directories_and_files sys w) in
  let w' := snd (create_directories_and_files sys w) in
  files w ⊆ files w'
  /\ (forall p, p ∈ files w' -> p ∈ files w \/ start_up_directory p)
  /\ signals w' = signals w /\ journal w' = journal w
  /\ (r = Done tt ->
      dirname LOG_FILE ∈ files w' /\ dirname PID_FILE ∈ files w'
      /\ CERTIFICATE_PATH ∈ files w' /\ KEY_PATH ∈ files w')
  /\ (forall e, r = Raised e ->
      e = FileNotFoundError
      \/ fst (makedirs sys (dirname LOG_FILE) (files w)) = Raised e
      \/ exists fs, fst (makedirs sys (dirname PID_FILE) fs) = Raised e).
Proof.
  intros Hsys. rewrite create_directories_and_files_unfold.
  pose proof (ensure_directory_spec sys (dirname LOG_FILE) w Hsys) as H1.
  cbn zeta in H1.
  destruct (ensure_directory sys (dirname LOG_FILE) w) as [r1 w1] eqn:Hrun1.
  cbn [fst snd] in H1. destruct H1 as (Hk1 & Ho1 & Hs1 & Hj1 & Hd1 & _).
  assert (Hraise1 : forall e, r1 = Raised e ->
            fst (makedirs sys (dirname LOG_FILE) (files w)) = Raised e).
  { intros e ->. revert Hrun1.
    unfold ensure_directory, sbind, os_path_exists, os_makedirs, sret.
    destruct (bool_decide _); cbn [negb fst snd]; [discriminate|].
    destruct (makedirs sys (dirname LOG_FILE) (files w)). now intros [= -> _]. }
  destruct r1 as [[]|e1].
  2:{ cbn [fst snd]. split; [|split; [|split; [|split; [|split]]]]; auto;
        try discriminate.
      intros p Hp. destruct (Ho1 p Hp); [now left|right; now left]. }
  pose proof (ensure_directory_spec sys (dirname PID_FILE) w1 Hsys) as H2.
  cbn zeta in H2.
  assert (Hraise2 : forall e, fst (ensure_directory sys (dirname PID_FILE) w1) = Raised e ->
            fst (makedirs sys (dirname PID_FILE) (files w1)) = Raised e).
  { intros e. unfold ensure_directory, sbind, os_path_exists, os_makedirs, sret.
    destruct (bool_decide _); cbn [negb fst snd]; [discriminate|].
    destruct (makedirs sys (dirname PID_FILE) (files w1)). now cbn. }
  destruct (ensure_directory sys (dirname PID_FILE) w1) as [r2 w2] eqn:Hrun2.
  cbn [fst snd] in H2, Hraise2. destruct H2 as (Hk2 & Ho2 & Hs2 & Hj2 & Hd2 & _).
  assert (Hkeep : files w ⊆ files w2) by (etrans; eauto).
  assert (Honly : forall p, p ∈ files w2 -> p ∈ files w \/ start_up_directory p).
  { intros p Hp. destruct (Ho2 p Hp) as [Hp1|Hpre]; [|right; now right].
    destruct (Ho1 p Hp1); [now left|right; now left]. }
  assert (Hs : signals w2 = signals w) by congruence.
  assert (Hj : journal w2 = journal w) by congruence.
  destruct r2 as [[]|e2].
  2:{ cbn [fst snd]. split; [|split; [|split; [|split; [|split]]]]; auto;
        try discriminate.
      all: try (intros e [= <-]; right; right; eauto). }
  destruct (decide (CERTIFICATE_PATH ∈ files w2)) as [Hc|Hc].
  2:{ rewrite (bool_decide_eq_false_2 _ Hc). cbn [negb fst snd].
      split; [|split; [|split; [|split; [|split]]]]; auto; try discriminate.
      all: try (intros e [= <-]; now left). }
  rewrite (bool_decide_eq_true_2 _ Hc). cbn [negb]. world_simpl.
  destruct (decide (KEY_PATH ∈ files w2)) as [Hkey|Hkey].
  2:{ rewrite (bool_decide_eq_false_2 _ Hkey). cbn [negb fst snd].
      split; [|split; [|split; [|split; [|split]]]]; auto; try discriminate.
      all: try (intros e [= <-]; now left). }
  rewrite (bool_decide_eq_true_2 _ Hkey). cbn [negb fst snd].
  split; [|split; [|split; [|split; [|split]]]]; auto; try discriminate.
  all: try (intros _; split; [apply Hk2, Hd1; reflexivity|];
            split; [now apply Hd2|]; now split).
Qed.


(** *** The process holding the port *)

Lemma rounds_app sys before calls1 calls2 :
  rounds sys before calls1 ->
  rounds sys (before ++ calls1) calls2 ->
  rounds sys before (calls1 ++ calls2).
Proof.
  induction 1 as [before|before pid e calls He _ IH|before pid calls He _ IH]; intros H2.
  - now rewrite app_nil_r in H2.
  - cbn [app]. eapply rounds_refused; [exact He|]. apply IH.
    now rewrite <- app_assoc.
  - cbn [app]. eapply rounds_killed; [exact He|]. apply IH.
    now rewrite <- app_assoc.
Qed.

(** One pass through the inner [try]. *)
Lemma kill_process_run sys port pid w :
  exists r calls records,
    kill_process sys port pid w = (r, after w calls records)
    /\ rounds sys (signals w) calls
    /\ (r = Done tt /\ length records = 1%nat
        \/ exists e, r = Raised e /\ tolerated e = false /\ records = []
                     /\ exists before sig, kill_error sys before pid sig = Some e).
Proof.
  unfold kill_process, try_except, sbind, os_kill, slog. world_simpl.
  destruct (kill_error sys (signals w) pid SIG0) as [e|] eqn:Hprobe.
  - assert (Hround : rounds sys (signals w) [(pid, SIG0)]).
    { eapply rounds_refused; [exact Hprobe|constructor]. }
    destruct e;
      try (exists (Done tt), [(pid, SIG0)]; eexists; split; [reflexivity|];
           split; [exact Hround|left; split; reflexivity]);
      (eexists (Raised _), [(pid, SIG0)], []; split;
       [unfold after; now rewrite app_nil_r|];
       split; [exact Hround|right; eexists; repeat split; eauto]).
  - assert (Hround : rounds sys (signals w) [(pid, SIG0); (pid, SIGKILL)]).
    { eapply rounds_killed; [exact Hprobe|constructor]. }
    world_simpl.
    destruct (kill_error sys (signals w ++ [(pid, SIG0)]) pid SIGKILL) as [e|] eqn:Hkill.
    + destruct e;
        try (exists (Done tt), [(pid, SIG0); (pid, SIGKILL)]; eexists; split;
             [unfold after; world_simpl; now rewrite <- app_assoc|];
             split; [exact Hround|left; split; reflexivity]);
        (eexists (Raised _), [(pid, SIG0); (pid, SIGKILL)], []; split;
         [unfold after; world_simpl; now rewrite <- app_assoc, app_nil_r|];
         split; [exact Hround|right; eexists; repeat split; eauto]).
    + exists (Done tt), [(pid, SIG0); (pid, SIGKILL)]; eexists; split;
        [unfold after; world_simpl; now rewrite <- app_assoc|].
      split; [exact Hround|left; split; reflexivity].
Qed.

Lemma kill_listed_run sys port lines w :
  exists r calls records,
    kill_listed sys port lines w = (r, after w calls records)
    /\ rounds sys (signals w) calls
    /\ (length records <= length lines)%nat
    /\ (Forall (fun line => exists pid, listed_pid line = Done pid) lines ->
        (forall before pid sig e,
            kill_error sys before pid sig = Some e -> tolerated e = true) ->
        r = Done tt /\ length records = length lines).
Proof.
  revert w. induction lines as [|line lines IH]; intros w.
  - exists (Done tt), [], []. cbn. rewrite after_nil.
    repeat split; auto. constructor.
  - cbn [kill_listed]. unfold sbind at 1, slift at 1.
    unfold listed_pid.
    destruct (second (str_split line)) as [field|e] eqn:Hfield.
    2:{ exists (Raised e), [], []. rewrite after_nil.
        split; [reflexivity|]. split; [constructor|]. split; [cbn; lia|].
        intros Hall _. inversion Hall as [|? ? [pid Hpid] _]; subst.
        unfold listed_pid in Hpid. rewrite Hfield in Hpid. discriminate. }
    unfold sbind at 1, slift at 1.
    destruct (int field) as [pid|e] eqn:Hint.
    2:{ exists (Raised e), [], []. rewrite after_nil.
        split; [reflexivity|]. split; [constructor|]. split; [cbn; lia|].
        intros Hall _. inversion Hall as [|? ? [pid Hpid] _]; subst.
        unfold listed_pid in Hpid. rewrite Hfield, Hint in Hpid. discriminate. }
    unfold sbind at 1.
    destruct (kill_process_run sys port pid w)
      as (r1 & calls1 & records1 & Hrun1 & Hrounds1 & Hr1).
    rewrite Hrun1.
    destruct Hr1 as [(-> & Hlen1)|(e & -> & He & -> & before & sig & Hkill)].
    + destruct (IH (after w calls1 records1))
        as (r & calls & records & Hrun & Hrounds & Hlen & Hgood).
      rewrite Hrun, after_after.
      exists r, (calls1 ++ calls)%list, (records1 ++ records)%list.
      split; [reflexivity|]. split; [now apply rounds_app|].
      rewrite length_app, Hlen1. cbn [length]. split; [lia|].
      intros Hall Hkills. inversion Hall as [|? ? _ Hrest]; subst.
      destruct (Hgood Hrest Hkills) as (-> & ->). split; [reflexivity|lia].
    + exists (Raised e), calls1, []. split; [reflexivity|].
      split; [exact Hrounds1|]. split; [cbn; lia|].
      intros _ Hkills. rewrite (Hkills _ _ _ _ Hkill) in He. discriminate.
Qed.


Lemma prefix_refl s : String.prefix s s = true.
Proof.
  induction s as [|c s IH]; [reflexivity|]. cbn.
  destruct (ascii_dec c c); [exact IH|congruence].
Qed.

Lemma sample_system_makedirs output refuse :
  makedirs_behaves (sample_system output refuse).
Proof.
  intros name fs. cbn. split; [set_solver|]. split; [|set_solver].
  intros p Hp. apply elem_of_union in Hp as [Hp|Hp]; [|now left].
  apply elem_of_singleton in Hp as ->. right. apply prefix_refl.
Qed.

(** X18. When [create_directories_and_files] returns normally, the
    directories [/var/log] and [/var/run] exist, the certificate and the key
    existed already before the call, and a second call returns normally
    without changing anything. *)
Theorem create_directories_and_files_success (sys : System) (w : World) :
  makedirs_behaves sys ->
  fst (create_directories_and_files sys w) = Done tt ->
  let w' := snd (create_directories_and_files sys w) in
  "/var/log" ∈ files w' /\ "/var/run" ∈ files w'
  /\ CERTIFICATE_PATH ∈ files w /\ KEY_PATH ∈ files w
  /\ create_directories_and_files sys w' = (Done tt, w').
Proof.
  intros Hsys Hdone.
  destruct (create_directories_and_files_run sys w Hsys)
    as (_ & Honly & _ & _ & Hpost & _).
  destruct (Hpost Hdone) as (Hlog & Hpid & Hcert & Hkey).
  cbn zeta. split; [exact Hlog|]. split; [exact Hpid|].
  assert (Hold : forall p, p = CERTIFICATE_PATH \/ p = KEY_PATH ->
            p ∈ files (snd (create_directories_and_files sys w)) -> p ∈ files w).
  { intros p Hp Hin. destruct (Honly p Hin) as [|Hdir]; [assumption|].
    now destruct (not_start_up_directory p Hp). }
  split; [apply Hold; auto|]. split; [apply Hold; auto|].
  set (w' := snd (create_directories_and_files sys w)) in *.
  rewrite create_directories_and_files_unfold.
  destruct (ensure_directory_spec sys (dirname LOG_FILE) w' Hsys)
    as (_ & _ & _ & _ & _ & Hskip1).
  destruct (ensure_directory_spec sys (dirname PID_FILE) w' Hsys)
    as (_ & _ & _ & _ & _ & Hskip2).
  rewrite (Hskip1 Hlog), (Hskip2 Hpid).
  now rewrite (bool_decide_eq_true_2 _ Hcert), (bool_decide_eq_true_2 _ Hkey).
Qed.

(** Only the certificate and the key exist. *)
Lemma create_directories_and_files_success_witness :
  let w' := snd (create_directories_and_files
                   (sample_system (Done lsof_output) refuse_977) fresh_world) in
  "/var/log" ∈ files w' /\ "/var/run" ∈ files w'
  /\ create_directories_and_files (sample_system (Done lsof_output) refuse_977) w'
     = (Done tt, w').
Proof.
  destruct (create_directories_and_files_success
              (sample_system (Done lsof_output) refuse_977) fresh_world
              (sample_system_makedirs _ _) eq_refl)
    as (Hlog & Hpid & _ & _ & Hagain).
  exact (conj Hlog (conj Hpid Hagain)).
Defined.

Lemma ensure_directory_lineage sys dir w :
  makedirs_adds_lineage_only sys ->
  let w' := snd (ensure_directory sys dir w) in
  files w ⊆ files w'
  /\ (forall p, p ∈ files w' -> p ∈ files w \/ In p (lineage dir))
  /\ signals w' = signals w /\ journal w' = journal w.
Proof.
  intros Hsys. unfold ensure_directory, sbind, os_path_exists, os_makedirs, sret.
  destruct (bool_decide (dir ∈ files w)); world_simpl; cbn [negb].
  - repeat split; auto.
  - destruct (Hsys dir (files w)) as (Hkeep & Honly).
    destruct (makedirs sys dir (files w)) as [r fs']. world_simpl.
    cbn [fst snd] in *. repeat split; auto.
Qed.

Lemma lineage_self p : In p (lineage p).
Proof. unfold lineage. cbn [lineage_from]. now left. Qed.

Lemma sample_system_lineage output refuse :
  makedirs_adds_lineage_only (sample_system output refuse).
Proof.
  intros name fs. cbn [makedirs sample_system fst snd]. split; [set_solver|].
  intros p Hp. apply elem_of_union in Hp as [Hp|Hp]; [|now left].
  apply elem_of_singleton in Hp as ->. right. apply lineage_self.
Qed.

(** X19. When [os.makedirs] removes no path and creates none but the
    directory and ancestors of it: whatever its outcome,
    [create_directories_and_files] removes no path, every path it adds is
    [/var/log], [/var/run], [/var] or [/], it sends no signal and logs
    nothing; and it never returns normally when the certificate or the key
    is missing. *)
Theorem create_directories_and_files_only_adds_directories (sys : System) (w : World) :
  makedirs_adds_lineage_only sys ->
  let w' := snd (create_directories_and_files sys w) in
  files w ⊆ files w'
  /\ (forall p, p ∈ files w' -> p ∉ files w ->
      p = "/var/log" \/ p = "/var/run" \/ p = "/var" \/ p = "/")
  /\ (CERTIFICATE_PATH ∉ files w \/ KEY_PATH ∉ files w ->
      fst (create_directories_and_files sys w) <> Done tt)
  /\ signals w' = signals w /\ journal w' = journal w.
Proof.
  intros Hsys. cbn zeta. rewrite create_directories_and_files_unfold.
  pose proof (ensure_directory_lineage sys (dirname LOG_FILE) w Hsys) as H1.
  cbn zeta in H1.
  destruct (ensure_directory sys (dirname LOG_FILE) w) as [r1 w1].
  cbn [snd] in H1. destruct H1 as (Hk1 & Ho1 & Hs1 & Hj1).
  assert (Hnew1 : forall p, p ∈ files w1 -> p ∉ files w ->
            p = "/var/log" \/ p = "/var/run" \/ p = "/var" \/ p = "/").
  { intros p Hin Hout. destruct (Ho1 p Hin) as [|Hl]; [contradiction|].
    cbn in Hl. intuition. }
  assert (Hold1 : forall p, p = CERTIFICATE_PATH \/ p = KEY_PATH ->
            p ∈ files w1 -> p ∈ files w).
  { intros p Hp Hin. destruct (decide (p ∈ files w)) as [|Hout]; [assumption|].
    destruct (Hnew1 p Hin Hout) as [-> | [-> | [-> | ->]]]; destruct Hp; discriminate. }
  destruct r1 as [[]|e1].
  2:{ cbn [fst snd]. split; [exact Hk1|]. split; [exact Hnew1|].
      split; [discriminate|]. split; assumption. }
  pose proof (ensure_directory_lineage sys (dirname PID_FILE) w1 Hsys) as H2.
  cbn zeta in H2.
  destruct (ensure_directory sys (dirname PID_FILE) w1) as [r2 w2].
  cbn [snd] in H2. destruct H2 as (Hk2 & Ho2 & Hs2 & Hj2).
  assert (Hkeep : files w ⊆ files w2) by (etrans; eauto).
  assert (Hnew : forall p, p ∈ files w2 -> p ∉ files w ->
            p = "/var/log" \/ p = "/var/run" \/ p = "/var" \/ p = "/").
  { intros p Hin Hout. destruct (Ho2 p Hin) as [Hin1|Hl]; [now apply Hnew1|].
    cbn in Hl. intuition. }
  assert (Hold : forall p, p = CERTIFICATE_PATH \/ p = KEY_PATH ->
            p ∈ files w2 -> p ∈ files w).
  { intros p Hp Hin. destruct (decide (p ∈ files w)) as [|Hout]; [assumption|].
    destruct (Hnew p Hin Hout) as [-> | [-> | [-> | ->]]]; destruct Hp; discriminate. }
  assert (Hs : signals w2 = signals w) by congruence.
  assert (Hj : journal w2 = journal w) by congruence.
  destruct r2 as [[]|e2].
  2:{ cbn [fst snd]. split; [exact Hkeep|]. split; [exact Hnew|].
      split; [discriminate|]. split; assumption. }
  destruct (decide (CERTIFICATE_PATH ∈ files w2)) as [Hc|Hc].
  2:{ rewrite (bool_decide_eq_false_2 _ Hc). cbn [negb fst snd].
      split; [exact Hkeep|]. split; [exact Hnew|].
      split; [discriminate|]. split; assumption. }
  rewrite (bool_decide_eq_true_2 _ Hc). cbn [negb].
  destruct (decide (KEY_PATH ∈ files w2)) as [Hkey|Hkey].
  2:{ rewrite (bool_decide_eq_false_2 _ Hkey). cbn [negb fst snd].
      split; [exact Hkeep|]. split; [exact Hnew|].
      split; [discriminate|]. split; assumption. }
  rewrite (bool_decide_eq_true_2 _ Hkey). cbn [negb fst snd].
  split; [exact Hkeep|]. split; [exact Hnew|]. split; [|split; assumption].
  intros [Hmissing|Hmissing] _; apply Hmissing, Hold; auto.
Qed.

(** The key is missing. *)
Lemma create_directories_and_files_only_adds_directories_witness :
  fst (create_directories_and_files (sample_system (Done lsof_output) refuse_977)
         {| files := {[CERTIFICATE_PATH]}; signals := []; journal := [] |})
  <> Done tt.
Proof.
  apply (create_directories_and_files_only_adds_directories
           (sample_system (Done lsof_output) refuse_977)
           {| files := {[CERTIFICATE_PATH]}; signals := []; journal := [] |}
           (sample_system_lineage _ _)).
  right. cbn [files]. rewrite elem_of_singleton. discriminate.
Defined.

(** X20. Whatever [lsof] prints and whatever [os.kill] raises, the calls
    [check_and_kill_process_on_port] makes to [os.kill] come in rounds: a
    probe with signal 0, followed by [SIGKILL] to the same process exactly
    when the probe did not raise.  No file is touched. *)
Theorem check_and_kill_probes_before_killing (sys : System) (port : Z) (w : World) :
  exists calls records,
    snd (check_and_kill_process_on_port sys port w) = after w calls records
    /\ rounds sys (signals w) calls.
Proof.
  unfold check_and_kill_process_on_port, try_except, sbind, slift.
  destruct (lsof sys port) as [text|e].
  - destruct (kill_listed_run sys port (tail (splitlines text)) w)
      as (r & calls & records & Hrun & Hrounds & _).
    rewrite Hrun. destruct r as [[]|e].
    + exists calls, records. split; [reflexivity|exact Hrounds].
    + destruct e; try (exists calls, records; split; [reflexivity|exact Hrounds]).
      exists calls, (records ++ [(INFO, No_process_found port)])%list.
      split; [|exact Hrounds]. unfold slog, after. world_simpl.
      now rewrite <- app_assoc.
  - destruct e; try (exists [], []; rewrite after_nil; split; [reflexivity|constructor]).
    exists [], [(INFO, No_process_found port)]. split; [|constructor].
    unfold slog, after. world_simpl. now rewrite app_nil_r.
Qed.




(** X22. When [lsof] raises [CalledProcessError],
    [check_and_kill_process_on_port] logs that no process was found and
    returns normally; any other exception of the [lsof] call (the program is
    missing, say) leaves the function, with nothing logged. *)
Theorem check_and_kill_when_lsof_fails
    (sys : System) (port : Z) (w : World) (e : error) :
  lsof sys port = Raised e ->
  check_and_kill_process_on_port sys port w
  = match e with
    | CalledProcessError => (Done tt, after w [] [(INFO, No_process_found port)])
    | _ => (Raised e, w)
    end.
Proof.
  intros Hlsof. unfold check_and_kill_process_on_port, try_except, sbind, slift.
  rewrite Hlsof. destruct e; try reflexivity.
  unfold slog, after. now rewrite app_nil_r.
Qed.

(** [lsof] is not installed. *)
Lemma check_and_kill_when_lsof_fails_witness :
  check_and_kill_process_on_port
    (sample_system (Raised FileNotFoundError) refuse_977) 53 fresh_world
  = (Raised FileNotFoundError, fresh_world).
Proof.
  apply (check_and_kill_when_lsof_fails
           (sample_system (Raised FileNotFoundError) refuse_977) 53 fresh_world
           FileNotFoundError).
  reflexivity.
Defined.
End StartupFacts.
